(** * Loris caches: a shallow embedding of [loris/img_infocache.py] and
      [loris/imgcache.py]

    The two caches are Python 2 classes working on the file system:
    [InfoCache] keeps [ImageInfo] records in an [OrderedDict] in front of
    [info.json] / [profile.icc] files, [ImageCache] keeps symbolic links from
    requested to canonical derivative paths.

    Python code is embedded as functions in a state-and-exception monad.  The
    state holds the cache object, a model of the file system and the records
    handed to the logger.  The library functions the caches call
    ([posixpath], [os], [urllib.unquote], [OrderedDict]) are embedded from
    their CPython 2.7 sources; the file system itself is a finite map from
    path strings to nodes. *)

From Stdlib Require Import ZArith String Ascii Lia.
From stdpp Require Import base option gmap strings list.

Open Scope string_scope.
Open Scope Z_scope.

(** ** Python values, exceptions and the effect monad *)

Module Py.

Inductive errno :=
| ENOENT | EEXIST | ENOTDIR | EISDIR | ENOTEMPTY | ELOOP | EBUSY.

Inductive exn :=
| KeyError
| AttributeError
| ValueError
| RuntimeError
| OSError (e : errno)
| IOError (e : errno).

Inductive outcome (A : Type) :=
| Return (a : A)
| Raise (e : exn).
Arguments Return {A} a.
Arguments Raise {A} e.

(** A computation over a state [S]: the state survives a raised exception,
    as the side effects of a Python function do. *)
Definition Eff (S A : Type) : Type := S -> outcome A * S.

Definition ret {S A} (a : A) : Eff S A := fun s => (Return a, s).

Definition raise {S A} (e : exn) : Eff S A := fun s => (Raise e, s).

Definition bind {S A B} (m : Eff S A) (k : A -> Eff S B) : Eff S B :=
  fun s =>
    match m s with
    | (Return a, s') => k a s'
    | (Raise e, s') => (Raise e, s')
    end.

(** [try: m except: h] where [h] decides what to do with the exception. *)
Definition try_except {S A} (m : Eff S A) (h : exn -> Eff S A) : Eff S A :=
  fun s =>
    match m s with
    | (Return a, s') => (Return a, s')
    | (Raise e, s') => h e s'
    end.

Definition gets {S A} (f : S -> A) : Eff S A := fun s => (Return (f s), s).

Definition modify {S} (f : S -> S) : Eff S unit := fun s => (Return tt, f s).

(** [datetime.utcfromtimestamp]: the time stamp is kept as it is. *)
Inductive datetime := utcfromtimestamp (t : Z).

(** Truth value of a [str]. *)
Definition truthy (s : string) : bool :=
  match s with EmptyString => false | String _ _ => true end.

(** [s.startswith('/')] and [s.endswith('/')]. *)
Definition startswith_slash (s : string) : bool :=
  match s with String c _ => Ascii.eqb c "/" | EmptyString => false end.

Fixpoint endswith_slash (s : string) : bool :=
  match s with
  | EmptyString => false
  | String c EmptyString => Ascii.eqb c "/"
  | String _ s' => endswith_slash s'
  end.

(** [s[1:]] *)
Definition drop_first (s : string) : string :=
  match s with EmptyString => EmptyString | String _ s' => s' end.

(** [s.split(sep)] for a one-character separator. *)
Fixpoint split (sep : ascii) (s : string) : list string :=
  match s with
  | EmptyString => [EmptyString]
  | String c s' =>
      let r := split sep s' in
      if Ascii.eqb c sep then EmptyString :: r
      else match r with
           | h :: t => String c h :: t
           | [] => [String c EmptyString]
           end
  end.

(** [s.rstrip('/')] *)
Fixpoint rstrip_slash (s : string) : string :=
  match s with
  | EmptyString => EmptyString
  | String c s' =>
      match rstrip_slash s' with
      | EmptyString => if Ascii.eqb c "/" then EmptyString else String c EmptyString
      | r => String c r
      end
  end.

End Py.
Export Py.

Declare Scope eff_scope.
Delimit Scope eff_scope with eff.
Notation "x <- m ;; k" := (bind m (fun x => k))
  (at level 100, m at next level, right associativity) : eff_scope.
Notation "m ;;; k" := (bind m (fun _ => k))
  (at level 100, right associativity) : eff_scope.

(** ** [posixpath] *)

Module posixpath.

(** One round of the loop of [posixpath.join]. *)
Definition join_step (path b : string) : string :=
  if startswith_slash b then b
  else if negb (truthy path) || endswith_slash path then path +:+ b
  else path +:+ "/" +:+ b.

Definition join (a : string) (p : list string) : string :=
  fold_left join_step p a.

(** [(p[:i], p[i:])] for [i = p.rfind('/') + 1]. *)
Fixpoint cut_at_last_slash (p : string) : string * string :=
  match p with
  | EmptyString => (EmptyString, EmptyString)
  | String c p' =>
      match cut_at_last_slash p' with
      | (EmptyString, t) =>
          if Ascii.eqb c "/" then (String c EmptyString, t)
          else (EmptyString, String c t)
      | (h, t) => (String c h, t)
      end
  end.

(** [if head and head != '/'*len(head): head = head.rstrip('/')] *)
Definition strip_head (head : string) : string :=
  match rstrip_slash head with
  | EmptyString => head
  | r => r
  end.

Definition split (p : string) : string * string :=
  let (head, tail) := cut_at_last_slash p in
  (strip_head head, tail).

Definition dirname (p : string) : string :=
  strip_head (fst (cut_at_last_slash p)).

End posixpath.

(** ** [urllib.unquote] *)

Module urllib.

(** The value of a character of ['0123456789ABCDEFabcdef']. *)
Definition hexval (c : ascii) : option N :=
  let n := N_of_ascii c in
  if (48 <=? n)%N && (n <=? 57)%N then Some (n - 48)%N
  else if (65 <=? n)%N && (n <=? 70)%N then Some (n - 55)%N
  else if (97 <=? n)%N && (n <=? 102)%N then Some (n - 87)%N
  else None.

(** [s += _hextochr[item[:2]] + item[2:]], and [s += '%' + item] on
    [KeyError]. *)
Definition unquote_item (s item : string) : string :=
  match item with
  | String a (String b rest) =>
      match hexval a, hexval b with
      | Some x, Some y => s +:+ String (ascii_of_N (16 * x + y)) rest
      | _, _ => s +:+ "%" +:+ item
      end
  | _ => s +:+ "%" +:+ item
  end.

Definition unquote (s : string) : string :=
  match Py.split "%" s with
  | r0 :: ((_ :: _) as items) => fold_left unquote_item items r0
  | _ => s
  end.

End urllib.

(** ** [collections.OrderedDict]

    The entries in insertion order, without duplicate keys. *)

Module OrderedDict.
Section Ops.
Context {K V : Type} `{EqDecision K}.

Definition t : Type := list (K * V).

(** [d.get(k)] *)
Fixpoint get (k : K) (d : t) : option V :=
  match d with
  | [] => None
  | (k', v') :: d' => if decide (k = k') then Some v' else get k d'
  end.

(** [d[k] = v]: a known key keeps its place, a new one goes last. *)
Fixpoint setitem (k : K) (v : V) (d : t) : t :=
  match d with
  | [] => [(k, v)]
  | (k', v') :: d' =>
      if decide (k = k') then (k', v) :: d' else (k', v') :: setitem k v d'
  end.

(** [del d[k]]; [None] stands for [KeyError]. *)
Fixpoint delitem (k : K) (d : t) : option t :=
  match d with
  | [] => None
  | (k', v') :: d' =>
      if decide (k = k') then Some d'
      else match delitem k d' with
           | Some r => Some ((k', v') :: r)
           | None => None
           end
  end.

(** [d.popitem(last=False)]; [None] stands for [KeyError]. *)
Definition popitem_first (d : t) : option ((K * V) * t) :=
  match d with
  | [] => None
  | kv :: d' => Some (kv, d')
  end.

(** [len(d)] *)
Definition len (d : t) : Z := Z.of_nat (length d).

End Ops.
End OrderedDict.

(** ** [os] and [os.path] over a model of the file system

    A file system maps a path string to a node.  Paths are taken as they are
    written (absolute and normalised); a symbolic link is followed when it is
    the last component of a path.  Every change stamps the node with the
    clock and advances it; the time stamp of the directory that holds a new
    or a removed entry is not followed: the properties of the two caches do
    not speak of the time stamp a directory has after a change. *)

Module os.

Inductive node :=
| File (content : string) (mtime : Z)
| Dir (mtime : Z)
| Symlink (target : string).

Record FS := mkFS { nodes : gmap string node; clock : Z }.

Definition MAXSYMLINKS : nat := 40.

(** The path reached by following the links at [p]; [None] after too many
    links. *)
Fixpoint resolve (n : nat) (m : gmap string node) (p : string) : option string :=
  match m !! p with
  | Some (Symlink target) =>
      match n with
      | O => None
      | S n' => resolve n' m target
      end
  | _ => Some p
  end.

Definition lstat (p : string) (s : FS) : outcome node :=
  match nodes s !! p with
  | Some nd => Return nd
  | None => Raise (OSError ENOENT)
  end.

Definition stat (p : string) (s : FS) : outcome node :=
  match resolve MAXSYMLINKS (nodes s) p with
  | None => Raise (OSError ELOOP)
  | Some q => lstat q s
  end.

Definition st_mtime (nd : node) : Z :=
  match nd with
  | File _ t => t
  | Dir t => t
  | Symlink _ => 0
  end.

(** [os.path.exists], [lexists], [isdir]: an error of [stat] is [False]. *)
Definition exists_ (p : string) (s : FS) : bool :=
  match stat p s with Return _ => true | Raise _ => false end.

Definition lexists (p : string) (s : FS) : bool :=
  match lstat p s with Return _ => true | Raise _ => false end.

Definition isdir (p : string) (s : FS) : bool :=
  match stat p s with Return (Dir _) => true | _ => false end.

(** [os.path.getmtime] *)
Definition getmtime (p : string) : Eff FS Z :=
  fun s =>
    match stat p s with
    | Return nd => (Return (st_mtime nd), s)
    | Raise e => (Raise e, s)
    end.

Definition put_node (p : string) (nd : node) (s : FS) : FS :=
  {| nodes := <[p := nd]> (nodes s); clock := clock s + 1 |}.

Definition del_node (p : string) (s : FS) : FS :=
  {| nodes := delete p (nodes s); clock := clock s + 1 |}.

(** What the kernel asks of the directory a new entry goes into. *)
Definition check_parent (p : string) (s : FS) : outcome unit :=
  match stat (posixpath.dirname p) s with
  | Return (Dir _) => Return tt
  | Return _ => Raise (OSError ENOTDIR)
  | Raise e => Raise e
  end.

Definition mkdir (p : string) : Eff FS unit :=
  fun s =>
    if lexists p s then (Raise (OSError EEXIST), s)
    else match check_parent p s with
         | Return _ => (Return tt, put_node p (Dir (clock s)) s)
         | Raise e => (Raise e, s)
         end.

(** [head, tail = path.split(name)] and
    [if not tail: head, tail = path.split(head)], the first lines of
    [makedirs] and of [removedirs]. *)
Definition split_name (name : string) : string * string :=
  let (head, tail) := posixpath.split name in
  if truthy tail then (head, tail) else posixpath.split head.

(** [os.makedirs]; the recursion is on [head], which gets shorter. *)
Fixpoint makedirs_rec (fuel : nat) (name : string) : Eff FS unit :=
  fun s =>
    let (head, tail) := split_name name in
    if truthy head && truthy tail && negb (exists_ head s) then
      match fuel with
      | O => (Raise RuntimeError, s)
      | S fuel' =>
          (try_except (makedirs_rec fuel' head)
             (fun e => match e with
                       | OSError EEXIST => ret tt
                       | _ => raise e
                       end) ;;;
           if String.eqb tail "." then ret tt else mkdir name)%eff s
      end
    else mkdir name s.

Definition makedirs (name : string) : Eff FS unit :=
  makedirs_rec (String.length name) name.

(** Directory entries of [p]. *)
Definition children (p : string) (s : FS) : list string :=
  filter (fun q => q ≠ p ∧ posixpath.dirname q = p) (map fst (map_to_list (nodes s))).

(** The root directory is never removed. *)
Definition rmdir (p : string) : Eff FS unit :=
  fun s =>
    match lstat p s with
    | Return (Dir _) =>
        if String.eqb p "/" then (Raise (OSError EBUSY), s)
        else match children p s with
             | [] => (Return tt, del_node p s)
             | _ :: _ => (Raise (OSError ENOTEMPTY), s)
             end
    | Return _ => (Raise (OSError ENOTDIR), s)
    | Raise e => (Raise e, s)
    end.

(** The [while head and tail] loop of [os.removedirs]. *)
Fixpoint removedirs_loop (fuel : nat) (head tail : string) : Eff FS unit :=
  fun s =>
    if truthy head && truthy tail then
      match fuel with
      | O => (Return tt, s)
      | S fuel' =>
          match rmdir head s with
          | (Raise _, s') => (Return tt, s')
          | (Return _, s') =>
              let (head', tail') := posixpath.split head in
              removedirs_loop fuel' head' tail' s'
          end
      end
    else (Return tt, s).

Definition removedirs (name : string) : Eff FS unit :=
  (rmdir name ;;;
   let (head, tail) := split_name name in
   removedirs_loop (String.length head) head tail)%eff.

Definition unlink (p : string) : Eff FS unit :=
  fun s =>
    match lstat p s with
    | Return (Dir _) => (Raise (OSError EISDIR), s)
    | Return _ => (Return tt, del_node p s)
    | Raise e => (Raise e, s)
    end.

Definition symlink (source link_name : string) : Eff FS unit :=
  fun s =>
    if lexists link_name s then (Raise (OSError EEXIST), s)
    else match check_parent link_name s with
         | Return _ => (Return tt, put_node link_name (Symlink source) s)
         | Raise e => (Raise e, s)
         end.

Definition as_IOError {A} (o : outcome A) : outcome A :=
  match o with
  | Raise (OSError e) => Raise (IOError e)
  | _ => o
  end.

(** [with open(p, 'w') as f: f.write(content)]: the file is created or
    truncated, through a link if [p] is one. *)
Definition write_file (p content : string) : Eff FS unit :=
  fun s =>
    match resolve MAXSYMLINKS (nodes s) p with
    | None => (Raise (IOError ELOOP), s)
    | Some q =>
        match nodes s !! q with
        | Some (Dir _) => (Raise (IOError EISDIR), s)
        | _ =>
            match as_IOError (check_parent q s) with
            | Return _ => (Return tt, put_node q (File content (clock s)) s)
            | Raise e => (Raise e, s)
            end
        end
    end.

(** [with open(p) as f: f.read()] *)
Definition read_file (p : string) : Eff FS string :=
  fun s =>
    match as_IOError (stat p s) with
    | Return (File content _) => (Return content, s)
    | Return _ => (Raise (IOError EISDIR), s)
    | Raise e => (Raise e, s)
    end.

End os.

(** ** The state the caches run in *)

Module World.

Inductive level := DEBUG | WARNING.

Record LogRecord := mkLog { levelname : level; message : string }.

(** The cache object [self], the file system and the log. *)
Record St (C : Type) := mkSt { self_ : C; fs : os.FS; log : list LogRecord }.
Arguments mkSt {C} _ _ _.
Arguments self_ {C} _.
Arguments fs {C} _.
Arguments log {C} _.

Section Lift.
Context {C : Type}.

(** A call into [os] or [os.path]. *)
Definition sys {A} (m : Eff os.FS A) : Eff (St C) A :=
  fun st =>
    let (r, s') := m (fs st) in
    (r, mkSt (self_ st) s' (log st)).

Definition sys_test (f : os.FS -> bool) : Eff (St C) bool :=
  gets (fun st => f (fs st)).

Definition logger_debug (msg : string) : Eff (St C) unit :=
  modify (fun st => mkSt (self_ st) (fs st) (log st ++ [mkLog DEBUG msg])).

Definition logger_warn (msg : string) : Eff (St C) unit :=
  modify (fun st => mkSt (self_ st) (fs st) (log st ++ [mkLog WARNING msg])).

Definition lift_outcome {A} (o : outcome A) : Eff (St C) A :=
  fun st => (o, st).

End Lift.
End World.
Export World.

(** ** [loris/img_infocache.py] *)

Module img_infocache.

(** What the cache reads of a request: [request.url] and [request.path]. *)
Record Request := mkRequest { url : string; path : string }.

#[global] Instance Request_eq_dec : EqDecision Request.
Proof. solve_decision. Defined.

(** An [ImageInfo]: the described image and the bytes of its colour
    profile, [None] or a [str]. *)
Record ImageInfo (Payload : Type) :=
  mkInfo { fields : Payload; color_profile_bytes : option string }.
Arguments mkInfo {Payload} _ _.
Arguments fields {Payload} _.
Arguments color_profile_bytes {Payload} _.

(** [info.color_profile_bytes = b] *)
Definition set_color_profile_bytes {Payload} (b : option string)
    (info : ImageInfo Payload) : ImageInfo Payload :=
  mkInfo (fields info) b.

(** What lives outside the two cache modules: the JSON form of an
    [ImageInfo] ([loris/img_info.py]) and the text a request formats to in
    a log message. *)
Class Collaborators (Payload : Type) := {
  to_json : ImageInfo Payload -> string;
  json_load : string -> outcome (ImageInfo Payload);
  str_of_request : Request -> string
}.

(** What [_dict] is indexed with: a [str] ([request.url], ['last']) or, in
    [__delitem__], a request object, which is equal to no [str]. *)
Inductive key := KStr (s : string) | KReq (r : Request).

#[global] Instance key_eq_dec : EqDecision key.
Proof. solve_decision. Defined.

(** The values of [_dict]: the [False] that [OrderedDict(last=False)] puts
    under ['last'], and the pairs [(info, lastmod)]. *)
Inductive value (Payload : Type) :=
| VBool (b : bool)
| VPair (info : ImageInfo Payload) (lastmod : datetime).
Arguments VBool {Payload} b.
Arguments VPair {Payload} info lastmod.

Record InfoCache (Payload : Type) := mkInfoCache {
  http_root : string;
  https_root : string;
  size : Z;
  _dict : OrderedDict.t (K := key) (V := value Payload)
}.
Arguments mkInfoCache {Payload} _ _ _ _.
Arguments http_root {Payload} _.
Arguments https_root {Payload} _.
Arguments size {Payload} _.
Arguments _dict {Payload} _.

Section Methods.
Context {Payload : Type} `{Collaborators Payload}.

Abbreviation Cache := (InfoCache Payload).
Abbreviation M := (Eff (St Cache)).

(** [InfoCache(config, size)] with [config['cache_dp'] = root].
    [OrderedDict.__init__] hands its keyword arguments to [update]:
    [OrderedDict(last=False)] is the dict with the one item
    ['last': False]. *)
Definition __init__ (root : string) (size : Z) : Cache :=
  {| http_root := posixpath.join root ["http"];
     https_root := posixpath.join root ["https"];
     size := size;
     _dict := [(KStr "last", VBool false)] |}.

Definition _which_root (self : Cache) (request : Request) : string :=
  if String.prefix "https" (url request) then https_root self
  else http_root self.

Definition ident_from_request (request : Request) : string :=
  String.concat "/" (removelast (Py.split "/" (drop_first (path request)))).

Definition _get_info_fp (self : Cache) (request : Request) : string :=
  let ident := ident_from_request request in
  let cache_root := _which_root self request in
  posixpath.join cache_root [urllib.unquote ident; "info.json"].

Definition _get_color_profile_fp (self : Cache) (request : Request) : string :=
  let ident := ident_from_request request in
  let cache_root := _which_root self request in
  posixpath.join cache_root [urllib.unquote ident; "profile.icc"].

(** The cache with [d] for its [_dict]. *)
Definition with_dict (d : OrderedDict.t) (self : Cache) : Cache :=
  mkInfoCache (http_root self) (https_root self) (size self) d.

Definition set_dict (d : OrderedDict.t) : M unit :=
  modify (fun st => mkSt (with_dict d (self_ st)) (fs st) (log st)).

(** Modelled from the spec: [ImageInfo.from_json] of [loris/img_info.py],
    which is not among the sources: the text at [fp] is read and parsed;
    a record that cannot be read or parsed raises. *)
Definition from_json (fp : string) : M (ImageInfo Payload) :=
  (content <- sys (os.read_file fp) ;;
   lift_outcome (json_load content))%eff.

Definition get (request : Request) : M (option (value Payload)) :=
  (self <- gets self_ ;;
   let info_and_lastmod := OrderedDict.get (KStr (url request)) (_dict self) in
   match info_and_lastmod with
   | Some v => ret (Some v)
   | None =>
       let info_fp := _get_info_fp self request in
       on_disk <- sys_test (os.exists_ info_fp) ;;
       if on_disk then
         info <- from_json info_fp ;;
         let icc_fp := _get_color_profile_fp self request in
         has_icc <- sys_test (os.exists_ icc_fp) ;;
         info <- (if has_icc then
                    bytes <- sys (os.read_file icc_fp) ;;
                    ret (set_color_profile_bytes (Some bytes) info)
                  else ret (set_color_profile_bytes None info)) ;;
         mtime <- sys (os.getmtime info_fp) ;;
         let lastmod := utcfromtimestamp mtime in
         let info_and_lastmod := VPair info lastmod in
         logger_debug ("Info for " +:+ str_of_request request
                       +:+ " read from file system") ;;;
         d <- gets (fun st => _dict (self_ st)) ;;
         set_dict (OrderedDict.setitem (KStr (url request)) info_and_lastmod d) ;;;
         ret (Some info_and_lastmod)
       else ret None
   end)%eff.

Definition has_key (request : Request) : M bool :=
  (self <- gets self_ ;;
   sys_test (os.exists_ (_get_info_fp self request)))%eff.

Definition __contains__ (request : Request) : M bool :=
  has_key request.

Definition __getitem__ (request : Request) : M (value Payload) :=
  (info_lastmod <- get request ;;
   match info_lastmod with
   | None => raise KeyError
   | Some v => ret v
   end)%eff.

(** [while len(self._dict) >= self.size: self._dict.popitem(last=False)]:
    the dict that is left, and [KeyError] when [popitem] finds it
    empty. *)
Fixpoint evict (size : Z) (d : OrderedDict.t (K := key) (V := value Payload))
    : outcome unit * OrderedDict.t :=
  if OrderedDict.len d >=? size then
    match d with
    | [] => (Raise KeyError, d)
    | _ :: d' => evict size d'
    end
  else (Return tt, d).

Definition __setitem__ (request : Request) (info : ImageInfo Payload) : M unit :=
  (logger_debug ("request passed to __setitem__: " +:+ str_of_request request) ;;;
   self <- gets self_ ;;
   let info_fp := _get_info_fp self request in
   let dp := posixpath.dirname info_fp in
   is_dir <- sys_test (os.isdir dp) ;;
   (if negb is_dir then
      try_except
        (sys (os.makedirs dp) ;;;
         logger_debug ("Created " +:+ dp))
        (fun e => match e with
                  | OSError EEXIST => ret tt
                  | _ => raise e
                  end)
    else ret tt) ;;;
   sys (os.write_file info_fp (to_json info)) ;;;
   logger_debug ("Created " +:+ info_fp) ;;;
   (match color_profile_bytes info with
    | Some (String _ _ as bytes) =>
        let icc_fp := _get_color_profile_fp self request in
        sys (os.write_file icc_fp bytes) ;;;
        logger_debug ("Created " +:+ icc_fp)
    | _ => ret tt
    end) ;;;
   mtime <- sys (os.getmtime info_fp) ;;
   let lastmod := utcfromtimestamp mtime in
   d <- gets (fun st => _dict (self_ st)) ;;
   let (popped, d') := evict (size self) d in
   set_dict d' ;;;
   lift_outcome popped ;;;
   set_dict (OrderedDict.setitem (KStr (url request)) (VPair info lastmod) d'))%eff.

(** [self._getcolor_profile_bytes]: the class has no attribute of this
    name, the look-up raises. *)
Definition _getcolor_profile_bytes (request : Request) : M string :=
  raise AttributeError.

(** [del self._dict[request]] has the request for its key, not
    [request.url]. *)
Definition __delitem__ (request : Request) : M unit :=
  (d <- gets (fun st => _dict (self_ st)) ;;
   match OrderedDict.delitem (KReq request) d with
   | None => raise KeyError
   | Some d' => set_dict d'
   end ;;;
   self <- gets self_ ;;
   let info_fp := _get_info_fp self request in
   sys (os.unlink info_fp) ;;;
   icc_fp <- _getcolor_profile_bytes request ;;
   has_icc <- sys_test (os.exists_ icc_fp) ;;
   (if has_icc then sys (os.unlink icc_fp) else ret tt) ;;;
   sys (os.removedirs (posixpath.dirname info_fp)))%eff.

End Methods.
End img_infocache.

(** ** [loris/imgcache.py] *)

Module imgcache.

(** What the cache reads of an image request. *)
Record ImageRequest := mkImageRequest {
  as_path : string;
  canonical_as_path : string;
  is_canonical : bool
}.

(** [class ImageCache(dict)]: the attribute [cache_root] and the items of
    the [dict] it derives from. *)
Record ImageCache := mkImageCache {
  cache_root : string;
  items : list (ImageRequest * string)
}.

(** [os.path.realpath], which reads the links of the file system. *)
Class Realpath := { realpath : string -> os.FS -> string }.

Section Methods.
Context `{Realpath}.

Abbreviation M := (Eff (St ImageCache)).

(** [ImageCache(config)] with [config['cache_dp'] = root] *)
Definition __init__ (root : string) : ImageCache :=
  {| cache_root := root; items := [] |}.

Definition get_request_cache_path (image_request : ImageRequest) : M string :=
  (self <- gets self_ ;;
   let request_fp := as_path image_request in
   gets (fun st =>
     realpath (posixpath.join (cache_root self) [urllib.unquote request_fp]) (fs st)))%eff.

Definition get_canonical_cache_path (image_request : ImageRequest) : M string :=
  (self <- gets self_ ;;
   let canonical_fp := canonical_as_path image_request in
   gets (fun st =>
     realpath (posixpath.join (cache_root self) [urllib.unquote canonical_fp]) (fs st)))%eff.

Definition __contains__ (image_request : ImageRequest) : M bool :=
  (fp <- get_request_cache_path image_request ;;
   sys_test (os.exists_ fp))%eff.

Definition get (image_request : ImageRequest) : M (option (string * datetime)) :=
  (cache_fp <- get_request_cache_path image_request ;;
   mtime <- sys (os.getmtime cache_fp) ;;
   let last_mod := utcfromtimestamp mtime in
   found <- sys_test (os.exists_ cache_fp) ;;
   if found then ret (Some (cache_fp, last_mod))
   else ret None)%eff.

Definition __getitem__ (image_request : ImageRequest) : M (string * datetime) :=
  (fp <- get image_request ;;
   match fp with
   | None => raise KeyError
   | Some v => ret v
   end)%eff.

Definition _link (source link_name : string) : M unit :=
  if String.eqb source link_name then
    logger_warn ("Circular symlink requested from " +:+ link_name +:+ " to "
                 +:+ source +:+ "; not creating symlink")
  else
    (let link_dp := posixpath.dirname link_name in
     dp_exists <- sys_test (os.exists_ link_dp) ;;
     (if negb dp_exists then sys (os.makedirs link_dp) else ret tt) ;;;
     link_exists <- sys_test (os.lexists link_name) ;;
     (if link_exists then sys (os.unlink link_name) else ret tt) ;;;
     sys (os.symlink source link_name) ;;;
     logger_debug ("Made symlink from " +:+ link_name +:+ " to " +:+ source))%eff.

Definition __setitem__ (image_request : ImageRequest) (canonical_fp : string) : M unit :=
  if negb (is_canonical image_request) then
    (requested_fp <- get_request_cache_path image_request ;;
     _link canonical_fp requested_fp)%eff
  else ret tt.

Definition __delitem__ (image_request : ImageRequest) : M unit :=
  ret tt.

Definition create_dir_and_return_file_path (image_request : ImageRequest) : M string :=
  (target_fp <- get_canonical_cache_path image_request ;;
   let target_dp := posixpath.dirname target_fp in
   try_except (sys (os.makedirs target_dp))
     (fun ose => match ose with
                 | OSError EEXIST => ret tt
                 | _ => raise ose
                 end) ;;;
   ret target_fp)%eff.

End Methods.
End imgcache.

(** ** Concrete caches, requests and disks *)

Module Examples.

(** A disk holding the cache roots and nothing else. *)
Definition disk0 : os.FS :=
  os.mkFS (<["/cache/img" := os.Dir 0]> (<["/cache" := os.Dir 0]> (<["/" := os.Dir 0]> ∅))) 1.

Module Info.
Import img_infocache.

(** Records that are their own JSON text. *)
#[global] Instance text_records : Collaborators string := {|
  to_json info := fields info;
  json_load text := Return (mkInfo text None);
  str_of_request request := "<Request " +:+ url request +:+ ">"
|}.

Definition reqA : Request := mkRequest "http://loris/a/info.json" "/a/info.json".
Definition reqB : Request := mkRequest "http://loris/b/info.json" "/b/info.json".
Definition reqC : Request := mkRequest "http://loris/c/info.json" "/c/info.json".
Definition reqAB : Request := mkRequest "http://loris/a/b/info.json" "/a/b/info.json".

Definition infoA : ImageInfo string := mkInfo "{width:100,height:200}" None.
Definition infoB : ImageInfo string := mkInfo "{width:30,height:40}" None.
Definition infoC : ImageInfo string := mkInfo "{width:5,height:6}" None.
Definition infoA_icc : ImageInfo string := mkInfo "{width:100,height:200}" (Some "ICC").

(** A new cache of capacity [n] on [disk0]. *)
Definition fresh (n : Z) : St (InfoCache string) :=
  mkSt (__init__ "/cache" n) disk0 [].

(** The state a computation leaves. *)
Definition after {A} (m : Eff (St (InfoCache string)) A)
    (st : St (InfoCache string)) : St (InfoCache string) :=
  snd (m st).

(** A new cache object of capacity [n] over the disk of [st]. *)
Definition restart (n : Z) (st : St (InfoCache string)) : St (InfoCache string) :=
  mkSt (__init__ "/cache" n) (fs st) (log st).

Definition keys (st : St (InfoCache string)) : list key :=
  map fst (_dict (self_ st)).

(** Capacity 2; [A], [B] and [C] are put in this order. *)
Definition three_puts : St (InfoCache string) :=
  after (__setitem__ reqC infoC)
    (after (__setitem__ reqB infoB)
       (after (__setitem__ reqA infoA) (fresh 2))).

End Info.

Module Img.
Import imgcache.

(** A disk without links, on which every path is its own real path. *)
#[global] Instance no_links : Realpath := {| realpath p _ := p |}.

Definition canonical_req : ImageRequest :=
  mkImageRequest "id/full/full/0/default.jpg" "id/full/full/0/default.jpg" true.

Definition collapsed_req : ImageRequest :=
  mkImageRequest "id/full/full/0/default.jpg" "id/full/full/0/default.jpg" false.

Definition alias_req : ImageRequest :=
  mkImageRequest "id/full/100,/0/default.jpg" "id/full/full/0/default.jpg" false.

Definition fresh : St ImageCache := mkSt (__init__ "/cache/img") disk0 [].
End Img.

End Examples.

(** ** Invariants *)

Module Invariants.

(** What [os.makedirs name] may do at the path [k]: nothing, or leave a
    directory there if [k] is no longer than [name]. *)
Definition only_dirs (name k : string) (s s1 : os.FS) : Prop :=
  os.nodes s1 !! k = os.nodes s !! k \/
  ((String.length k <= String.length name)%nat /\
   exists t, os.nodes s1 !! k = Some (os.Dir t)).

(** The keys of [_dict] are strings: [__init__], [get] and [put] store no
    other. *)
Definition str_keys {Payload : Type}
    (d : OrderedDict.t (K := img_infocache.key) (V := img_infocache.value Payload))
    : Prop :=
  Forall (fun kv => exists s, fst kv = img_infocache.KStr s) d.

(** A computation that leaves [f] of the state as it found it. *)
Definition preserves {C A X : Type} (f : St C -> X) (m : Eff (St C) A) : Prop :=
  forall st r st', m st = (r, st') -> f st' = f st.

(** What [InfoCache] has on disk: the file system and the two roots. *)
Definition disk_view {Payload : Type} (st : St (img_infocache.InfoCache Payload))
    : os.FS * string * string :=
  (fs st, img_infocache.http_root (self_ st), img_infocache.https_root (self_ st)).

End Invariants.
Export Invariants.

(** ** Runs of a cache and changes of the disk *)

Module Runs.

(** A change of the file system that adds directories and nothing else:
    a file or a link is as it was, a directory is still a directory
    (whatever its time stamp), and what is new is a directory. *)
Definition adds_dirs (s s1 : os.FS) : Prop :=
  forall k,
    match os.nodes s !! k with
    | Some (os.Dir _) => exists t, os.nodes s1 !! k = Some (os.Dir t)
    | Some nd => os.nodes s1 !! k = Some nd
    | None => os.nodes s1 !! k = None \/
              exists t, os.nodes s1 !! k = Some (os.Dir t)
    end.

Section InfoCacheRuns.
Context {Payload : Type} `{img_infocache.Collaborators Payload}.

(** The calls a request handler makes on an [InfoCache]. *)
Inductive op :=
| Get (request : img_infocache.Request)
| Put (request : img_infocache.Request) (info : img_infocache.ImageInfo Payload).

(** The state after a call, whether it returned or raised. *)
Definition step (st : St (img_infocache.InfoCache Payload)) (o : op)
    : St (img_infocache.InfoCache Payload) :=
  match o with
  | Get request => snd (img_infocache.get request st)
  | Put request info => snd (img_infocache.__setitem__ request info st)
  end.

Definition run (ops : list op) (st : St (img_infocache.InfoCache Payload))
    : St (img_infocache.InfoCache Payload) :=
  fold_left step ops st.

Definition is_put (o : op) : bool :=
  match o with Put _ _ => true | Get _ => false end.

End InfoCacheRuns.

(** Records whose JSON text is wrapped in braces; other text does not
    parse. *)
Definition braced_records : img_infocache.Collaborators string := {|
  img_infocache.to_json info := "{" +:+ img_infocache.fields info +:+ "}";
  img_infocache.json_load text :=
    match text with
    | String "{" _ => Return (img_infocache.mkInfo text None)
    | _ => Raise ValueError
    end;
  img_infocache.str_of_request request := img_infocache.url request
|}.

(** Requests for the same image over the two schemes, and one whose
    identifier decodes to an absolute path. *)
Definition reqA_https : img_infocache.Request :=
  img_infocache.mkRequest "https://loris/a/info.json" "/a/info.json".

Definition req_abs : img_infocache.Request :=
  img_infocache.mkRequest "http://loris/%2Fetc/info.json" "/%2Fetc/info.json".

(** Another request with the URL of [A]. *)
Definition reqA_other_path : img_infocache.Request :=
  img_infocache.mkRequest "http://loris/a/info.json" "/elsewhere/info.json".

(** A new cache, for [braced_records], on a disk where the info file of [A]
    holds text that is no JSON. *)
Definition garbled : St (img_infocache.InfoCache string) :=
  mkSt (img_infocache.__init__ "/cache" 2)
    (os.mkFS
       (<["/cache/http/a/info.json" := os.File "not json" 1]>
          (<["/cache/http/a" := os.Dir 0]>
             (<["/cache/http" := os.Dir 0]> (os.nodes Examples.disk0)))) 2)
    [].

(** [A] and [B] are put into a cache of capacity 2, which is then full. *)
Definition two_puts : St (img_infocache.InfoCache string) :=
  Examples.Info.after
    (img_infocache.__setitem__ Examples.Info.reqB Examples.Info.infoB)
    (Examples.Info.after
       (img_infocache.__setitem__ Examples.Info.reqA Examples.Info.infoA)
       (Examples.Info.fresh 2)).

(** The three puts of [Examples.Info.three_puts] as a run. *)
Definition abc_puts : list (op (Payload := string)) :=
  [Put Examples.Info.reqA Examples.Info.infoA;
   Put Examples.Info.reqB Examples.Info.infoB;
   Put Examples.Info.reqC Examples.Info.infoC].

(** An [ImageCache] on a disk that holds the canonical derivative. *)
Definition rendered : St imgcache.ImageCache :=
  mkSt (imgcache.__init__ "/cache/img")
    (snd ((os.makedirs "/cache/img/id/full/full/0" ;;;
           os.write_file "/cache/img/id/full/full/0/default.jpg" "JPEG")%eff
            Examples.disk0))
    [].

End Runs.
Export Runs.

(** * Properties *)

(** ** The effect monad *)

Module eff_facts.
Section Facts.
Context {S A B : Type}.

Lemma bind_return_inv (m : Eff S A) (k : A -> Eff S B) (s s' : S) (b : B) :
  bind m k s = (Return b, s') ->
  exists a s1, m s = (Return a, s1) /\ k a s1 = (Return b, s').
Proof.
  unfold bind. destruct (m s) as [[a | e] s1]; [eauto | discriminate].
Qed.

Lemma bind_return (m : Eff S A) (k : A -> Eff S B) (s s1 : S) (a : A) :
  m s = (Return a, s1) -> bind m k s = k a s1.
Proof. unfold bind. by intros ->. Qed.

Lemma bind_raise (m : Eff S A) (k : A -> Eff S B) (s s1 : S) (e : exn) :
  m s = (Raise e, s1) -> bind m k s = (Raise e, s1).
Proof. unfold bind. by intros ->. Qed.
End Facts.

Section World.
Context {C A : Type}.

Lemma sys_inv (m : Eff os.FS A) (st st1 : St C) (r : outcome A) :
  sys m st = (r, st1) ->
  exists s1, m (fs st) = (r, s1) /\ st1 = mkSt (self_ st) s1 (log st).
Proof.
  unfold sys. destruct (m (fs st)) as [r' s1]. intros [= <- <-]. eauto.
Qed.
End World.

(** *** Computations that leave a part of the state alone *)

Section Preserves.
Context {C X : Type} (f : St C -> X).

Lemma preserves_ret {A} (a : A) : preserves f (ret a).
Proof. by intros st r st' [= _ <-]. Qed.

Lemma preserves_raise {A} (e : exn) : preserves f (A := A) (raise e).
Proof. by intros st r st' [= _ <-]. Qed.

Lemma preserves_gets {A} (g : St C -> A) : preserves f (gets g).
Proof. by intros st r st' [= _ <-]. Qed.

Lemma preserves_sys_test (g : os.FS -> bool) : preserves f (sys_test g).
Proof. by intros st r st' [= _ <-]. Qed.

Lemma preserves_lift_outcome {A} (o : outcome A) : preserves f (lift_outcome o).
Proof. by intros st r st' [= _ <-]. Qed.

Lemma preserves_bind {A B} (m : Eff (St C) A) (k : A -> Eff (St C) B) :
  preserves f m -> (forall a, preserves f (k a)) -> preserves f (bind m k).
Proof.
  intros Hm Hk st r st'. unfold bind.
  destruct (m st) as [[a | e] st1] eqn:Em.
  - intros Hr. rewrite (Hk _ _ _ _ Hr). eapply Hm, Em.
  - intros [= _ <-]. eapply Hm, Em.
Qed.
End Preserves.

Create HintDb preserves discriminated.
#[export] Hint Resolve preserves_ret preserves_raise preserves_gets
  preserves_sys_test preserves_lift_outcome preserves_bind : preserves.

End eff_facts.

(** ** [OrderedDict] *)

Module OrderedDict_facts.
Import OrderedDict.

Section Facts.
Context {K V : Type} `{EqDecision K}.
Implicit Types (d : t (K := K) (V := V)) (k : K) (v : V).

Lemma get_setitem_eq k v d : get k (setitem k v d) = Some v.
Proof.
  induction d as [| [k' v'] d IH]; simpl.
  - by rewrite decide_True.
  - destruct (decide (k = k')) as [-> | Hne]; simpl.
    + by rewrite decide_True.
    + by rewrite decide_False.
Qed.

Lemma get_setitem_ne k k' v d : k <> k' -> get k' (setitem k v d) = get k' d.
Proof.
  intros Hne. induction d as [| [k0 v0] d IH]; simpl.
  - by rewrite decide_False.
  - destruct (decide (k = k0)) as [-> | Hk]; simpl.
    + by rewrite !decide_False.
    + by rewrite IH.
Qed.

(** [d[k] = v] makes the dict at most one entry longer. *)
Lemma len_setitem k v d : len (setitem k v d) <= len d + 1.
Proof.
  unfold len. induction d as [| [k' v'] d IH]; simpl; [lia |].
  destruct (decide (k = k')); simpl; lia.
Qed.

Lemma len_setitem_new k v d :
  get k d = None -> len (setitem k v d) = len d + 1.
Proof.
  unfold len. induction d as [| [k' v'] d IH]; simpl; [lia |].
  destruct (decide (k = k')); [discriminate |].
  intros Hd. simpl. specialize (IH Hd). lia.
Qed.

(** A key that no entry has cannot be deleted. *)
Lemma delitem_absent k d :
  Forall (fun kv => fst kv <> k) d -> delitem k d = None.
Proof.
  induction 1 as [| [k' v'] d Hk _ IH]; simpl; [done |].
  rewrite decide_False by (simpl in Hk; congruence). by rewrite IH.
Qed.
End Facts.
End OrderedDict_facts.

(** ** [posixpath] *)

Module posixpath_facts.
Import posixpath.


Lemma append_assoc (a b c : string) : (a +:+ b) +:+ c = a +:+ b +:+ c.
Proof.
  induction a as [| x a IH]; [reflexivity |].
  change (String x ((a +:+ b) +:+ c) = String x (a +:+ b +:+ c)).
  by rewrite IH.
Qed.

Lemma cut_at_last_slash_length (p : string) :
  (String.length (fst (cut_at_last_slash p))
   + String.length (snd (cut_at_last_slash p)))%nat = String.length p.
Proof.
  induction p as [| c p IH]; simpl; [done |].
  destruct (cut_at_last_slash p) as [[| c' h] t]; simpl in *.
  - destruct (Ascii.eqb c "/"); simpl; lia.
  - lia.
Qed.

Lemma rstrip_slash_length (s : string) :
  (String.length (rstrip_slash s) <= String.length s)%nat.
Proof.
  induction s as [| c s IH]; simpl; [done |].
  destruct (rstrip_slash s) as [| c' r]; simpl in *.
  - destruct (Ascii.eqb c "/"); simpl; lia.
  - lia.
Qed.

Lemma strip_head_length (s : string) :
  (String.length (strip_head s) <= String.length s)%nat.
Proof.
  unfold strip_head. pose proof (rstrip_slash_length s) as Hr.
  destruct (rstrip_slash s); simpl in *; lia.
Qed.

(** The head and the tail of [split] share out the path. *)
Lemma split_length (p h t : string) :
  split p = (h, t) ->
  (String.length h + String.length t <= String.length p)%nat.
Proof.
  unfold split. pose proof (cut_at_last_slash_length p) as Hc.
  destruct (cut_at_last_slash p) as [h0 t0]. intros [= <- <-].
  pose proof (strip_head_length h0). simpl in *. lia.
Qed.

Lemma split_head_shorter (p h t : string) :
  split p = (h, t) -> truthy t = true ->
  (String.length h < String.length p)%nat.
Proof.
  intros Hs Ht. apply split_length in Hs.
  destruct t; [discriminate | simpl in *; lia].
Qed.


(** Two names joined to the same directory differ only in the name. *)
Lemma join_shape (a b c c' : string) :
  startswith_slash c = false -> startswith_slash c' = false ->
  exists P, join a [b; c] = P +:+ c /\ join a [b; c'] = P +:+ c'.
Proof.
  intros Hc Hc'. unfold join. simpl. unfold join_step at 1 3.
  rewrite Hc, Hc'.
  destruct (negb (truthy (join_step a b)) || endswith_slash (join_step a b)).
  - by exists (join_step a b).
  - exists (join_step a b +:+ "/"). by rewrite !append_assoc.
Qed.

(** A name without a slash, put after a path, leaves the directory of the
    path as it is. *)
Lemma cut_at_last_slash_append (P name : string) :
  cut_at_last_slash name = (EmptyString, name) ->
  cut_at_last_slash (P +:+ name)
    = (fst (cut_at_last_slash P), snd (cut_at_last_slash P) +:+ name).
Proof.
  intros Hname. induction P as [| c P IH]; [exact Hname |].
  change (String c P +:+ name) with (String c (P +:+ name)).
  cbn [cut_at_last_slash]. rewrite IH.
  destruct (cut_at_last_slash P) as [[| c' h] t]; cbn [fst snd];
    [destruct (Ascii.eqb c "/") |]; reflexivity.
Qed.

Lemma dirname_append (P name : string) :
  cut_at_last_slash name = (EmptyString, name) ->
  dirname (P +:+ name) = strip_head (fst (cut_at_last_slash P)).
Proof.
  intros Hname. unfold dirname. by rewrite cut_at_last_slash_append.
Qed.

End posixpath_facts.

(** ** The file system *)

Module os_facts.
Import os posixpath_facts.

Lemma getmtime_state (p : string) (s s1 : FS) (r : outcome Z) :
  getmtime p s = (r, s1) -> s1 = s.
Proof.
  unfold getmtime. destruct (stat p s); by intros [= _ <-].
Qed.

(** A path that is no link resolves to itself. *)
Lemma resolve_not_link (n : nat) (m : gmap string node) (p : string) :
  (forall target, m !! p <> Some (Symlink target)) -> resolve n m p = Some p.
Proof.
  intros Hp. destruct n; simpl; destruct (m !! p) as [[| |target] |] eqn:E;
    try done; by destruct (Hp target).
Qed.

(** The head that [split_name] gives is no longer than the name, and
    shorter when there is a tail. *)
Lemma split_name_length (name head tail : string) :
  split_name name = (head, tail) ->
  (String.length head <= String.length name)%nat /\
  (truthy tail = true -> (String.length head < String.length name)%nat).
Proof.
  unfold split_name.
  destruct (posixpath.split name) as [h1 t1] eqn:E1.
  pose proof (split_length _ _ _ E1) as L1.
  destruct (truthy t1) eqn:Et1.
  - intros [= <- <-]. split; [lia |]. intros _.
    eapply split_head_shorter; eauto.
  - intros E2. pose proof (split_length _ _ _ E2) as L2.
    split; [lia |]. intros Ht.
    pose proof (split_head_shorter _ _ _ E2 Ht). lia.
Qed.

Lemma mkdir_frame (p k : string) (s s1 : FS) (r : outcome unit) :
  mkdir p s = (r, s1) ->
  nodes s1 !! k = nodes s !! k \/
  (k = p /\ exists t, nodes s1 !! k = Some (Dir t)).
Proof.
  unfold mkdir. destruct (lexists p s); [intros [= _ <-]; by left |].
  destruct (check_parent p s); intros [= _ <-]; [| by left].
  simpl. destruct (decide (k = p)) as [-> | Hne].
  - right. split; [done |]. eexists. apply lookup_insert_eq.
  - left. by apply lookup_insert_ne.
Qed.

Lemma only_dirs_refl (name k : string) (s : FS) : only_dirs name k s s.
Proof. by left. Qed.

Lemma only_dirs_trans (name name' k : string) (s s1 s2 : FS) :
  (String.length name' <= String.length name)%nat ->
  only_dirs name' k s s1 -> only_dirs name k s1 s2 -> only_dirs name k s s2.
Proof.
  intros Hle [H1 | [H1 H1']] [H2 | H2]; try (by right).
  - left. congruence.
  - right. split; [lia |]. by rewrite H2.
Qed.

Lemma mkdir_only_dirs (name k : string) (s s1 : FS) (r : outcome unit) :
  mkdir name s = (r, s1) -> only_dirs name k s s1.
Proof.
  intros Hm. destruct (mkdir_frame _ k _ _ _ Hm) as [? | [-> ?]]; [by left |].
  right. split; [lia | done].
Qed.

Lemma makedirs_rec_only_dirs (fuel : nat) (name k : string) (s s1 : FS)
    (r : outcome unit) :
  makedirs_rec fuel name s = (r, s1) -> only_dirs name k s s1.
Proof.
  revert name s s1 r.
  induction fuel as [| fuel IH]; intros name s s1 r; simpl;
    destruct (split_name name) as [head tail] eqn:Eht;
    destruct (split_name_length _ _ _ Eht) as [Hle _];
    destruct (truthy head && truthy tail && negb (exists_ head s)).
  - intros [= _ <-]. apply only_dirs_refl.
  - apply mkdir_only_dirs.
  - unfold bind, try_except.
    destruct (makedirs_rec fuel head s) as [o s2] eqn:Erec.
    apply IH in Erec.
    assert (Hlast : forall r s1,
              (if String.eqb tail "." then ret tt else mkdir name) s2 = (r, s1) ->
              only_dirs name k s s1).
    { intros r' s1' Hr. apply (only_dirs_trans name head k s s2 s1' Hle Erec).
      destruct (String.eqb tail ".").
      - injection Hr as _ <-. apply only_dirs_refl.
      - by eapply mkdir_only_dirs. }
    assert (Hhere : only_dirs name k s s2).
    { apply (only_dirs_trans name head k s s2 s2 Hle Erec), only_dirs_refl. }
    destruct o as [[] | e]; [apply Hlast |].
    destruct e as [| | | | [] |]; simpl;
      solve [apply Hlast | intros [= _ <-]; exact Hhere].
  - apply mkdir_only_dirs.
Qed.

Lemma makedirs_only_dirs (name k : string) (s s1 : FS) (r : outcome unit) :
  makedirs name s = (r, s1) -> only_dirs name k s s1.
Proof. apply makedirs_rec_only_dirs. Qed.

(** Fuel beyond the length of the name makes no difference to
    [makedirs]: it never runs out. *)
Lemma makedirs_rec_fuel (n m : nat) (name : string) (s : FS) :
  (String.length name <= n)%nat -> (String.length name <= m)%nat ->
  makedirs_rec n name s = makedirs_rec m name s.
Proof.
  revert m name s.
  induction n as [| n IH]; intros [| m] name s Hn Hm; simpl;
    destruct (split_name name) as [head tail] eqn:Eht;
    destruct (split_name_length _ _ _ Eht) as [Hle Hlt];
    destruct (truthy head) eqn:Hh; simpl; try done;
    destruct (truthy tail) eqn:Ht; simpl; try done;
    specialize (Hlt eq_refl);
    destruct (exists_ head s); simpl; try done; try lia.
  unfold bind, try_except. rewrite (IH m head s) by lia. done.
Qed.

(** The same for the loop of [removedirs]. *)
Lemma removedirs_loop_fuel (n m : nat) (head tail : string) (s : FS) :
  (String.length head <= n)%nat -> (String.length head <= m)%nat ->
  removedirs_loop n head tail s = removedirs_loop m head tail s.
Proof.
  revert m head tail s.
  induction n as [| n IH]; intros [| m] head tail s Hn Hm; simpl;
    destruct (truthy head) eqn:Hh; simpl; try done;
    destruct (truthy tail) eqn:Ht; simpl; try done;
    try (destruct head; simpl in *; [discriminate | lia]).
  destruct (rmdir head s) as [[[] | e] s1]; [| done].
  destruct (posixpath.split head) as [head' tail'] eqn:Es.
  destruct (truthy tail') eqn:Ht'.
  - apply IH; pose proof (split_head_shorter _ _ _ Es Ht'); lia.
  - destruct n, m; simpl; by rewrite Ht', andb_false_r.
Qed.

(** The loop of [removedirs] returns normally whatever becomes of the
    directories above. *)
Lemma removedirs_loop_returns (fuel : nat) (head tail : string) (s : FS) :
  fst (removedirs_loop fuel head tail s) = Return tt.
Proof.
  revert head tail s.
  induction fuel as [| fuel IH]; intros head tail s; simpl;
    destruct (truthy head && truthy tail); try done.
  destruct (rmdir head s) as [[[] | e] s1]; [| done].
  destruct (posixpath.split head). apply IH.
Qed.

Lemma read_file_state (p : string) (s s1 : FS) (r : outcome string) :
  read_file p s = (r, s1) -> s1 = s.
Proof.
  unfold read_file. destruct (as_IOError (stat p s)) as [[] |];
    by intros [= _ <-].
Qed.

(** A file written at a path that is no link is found there. *)
Lemma write_file_plain (p content : string) (s s1 : FS) :
  (forall target, nodes s !! p <> Some (Symlink target)) ->
  write_file p content s = (Return tt, s1) ->
  s1 = put_node p (File content (clock s)) s.
Proof.
  intros Hp. unfold write_file. rewrite (resolve_not_link _ _ _ Hp).
  destruct (nodes s !! p) as [[| |] |]; try discriminate;
    destruct (as_IOError (check_parent p s)); by intros [= <-].
Qed.

Lemma stat_put_node_file (p content : string) (t : Z) (s : FS) :
  stat p (put_node p (File content t) s) = Return (File content t).
Proof.
  unfold stat, lstat.
  rewrite resolve_not_link;
    simpl; rewrite lookup_insert_eq; [done | discriminate].
Qed.


(** [stat] of a path that holds a file or a directory. *)
Lemma stat_plain (p : string) (nd : node) (s : FS) :
  nodes s !! p = Some nd -> (forall target, nd <> Symlink target) ->
  stat p s = Return nd.
Proof.
  intros Hp Hnd. unfold stat, lstat.
  rewrite resolve_not_link
    by (intros target; rewrite Hp; intros [= ->]; by destruct (Hnd target)).
  by rewrite Hp.
Qed.

(** Where the directory is there and the path is free or holds a file,
    [open(p, 'w')] and the write go through. *)
Lemma write_file_returns (p content : string) (t : Z) (s : FS) :
  nodes s !! posixpath.dirname p = Some (Dir t) ->
  (nodes s !! p = None \/ exists c0 t0, nodes s !! p = Some (File c0 t0)) ->
  write_file p content s = (Return tt, put_node p (File content (clock s)) s).
Proof.
  intros Hdp Hp. unfold write_file, check_parent.
  rewrite resolve_not_link
    by (intros target; destruct Hp as [-> | (c0 & t0 & ->)]; discriminate).
  rewrite (stat_plain _ _ _ Hdp) by done.
  by destruct Hp as [-> | (c0 & t0 & ->)].
Qed.

End os_facts.

(** ** The metadata cache, [InfoCache] *)

Module img_infocache_facts.
Import img_infocache eff_facts OrderedDict_facts os_facts posixpath_facts.

Ltac eff_inv H :=
  let a := fresh "a" in
  let st := fresh "st" in
  let Hm := fresh "Hm" in
  apply bind_return_inv in H as (a & st & Hm & H).

Section Facts.
Context {Payload : Type} `{Collaborators Payload}.
Abbreviation dict := (OrderedDict.t (K := key) (V := value Payload)).
Implicit Types (st : St (InfoCache Payload)) (request : Request)
  (info : ImageInfo Payload) (self : InfoCache Payload) (d : dict).

(** *** The eviction loop *)

(** One round of the loop: the test, then [popitem(last=False)]. *)
Lemma evict_unfold (n : Z) d :
  evict n d =
    if OrderedDict.len d >=? n then
      match OrderedDict.popitem_first d with
      | None => (Raise KeyError, d)
      | Some (_, d') => evict n d'
      end
    else (Return tt, d).
Proof. by destruct d. Qed.

Lemma evict_return (n : Z) d d' :
  evict n d = (Return tt, d') -> OrderedDict.len d' < n.
Proof.
  induction d as [| kv d IH]; simpl;
    destruct (_ >=? n) eqn:E; try done; intros [= <-];
    rewrite Z.geb_leb in E; by apply Z.leb_gt in E.
Qed.

Lemma evict_raise (n : Z) d d' (e : exn) :
  evict n d = (Raise e, d') -> e = KeyError /\ d' = [] /\ n <= 0.
Proof.
  induction d as [| kv d IH]; simpl;
    destruct (_ >=? n) eqn:E; try done; intros [= <- <-].
  rewrite Z.geb_leb in E. apply Z.leb_le in E. done.
Qed.

(** With a capacity of one or more the loop ends normally. *)
Lemma evict_returns (n : Z) d :
  0 < n -> exists d', evict n d = (Return tt, d').
Proof.
  intros Hn. destruct (evict n d) as [[[] | e] d'] eqn:E; [eauto |].
  apply evict_raise in E. lia.
Qed.

(** *** The two paths of a request *)

Lemma fp_shape self request :
  exists P, _get_info_fp self request = P +:+ "info.json" /\
            _get_color_profile_fp self request = P +:+ "profile.icc".
Proof. by apply join_shape. Qed.

Lemma fp_distinct self request :
  _get_color_profile_fp self request <> _get_info_fp self request.
Proof.
  destruct (fp_shape self request) as (P & -> & ->).
  intros Heq%(inj (String.app P)). discriminate.
Qed.


(** *** What a [put] that returns has done *)

Lemma ensure_dir_inv (dp : string) (is_dir : bool) st st0 (a : unit) :
  (if negb is_dir then
     try_except
       (sys (os.makedirs dp) ;;; logger_debug ("Created " +:+ dp))%eff
       (fun e => match e with
                 | OSError EEXIST => ret tt
                 | _ => raise e
                 end)
   else ret tt) st = (Return a, st0) ->
  self_ st0 = self_ st /\
  (fs st0 = fs st \/ exists r, os.makedirs dp (fs st) = (r, fs st0)).
Proof.
  destruct is_dir; simpl.
  - intros [= _ <-]. by auto.
  - unfold try_except, bind, sys.
    destruct (os.makedirs dp (fs st)) as [[[] | e] s1] eqn:Emk.
    + intros [= _ <-]. simpl. eauto.
    + destruct e as [| | | | [] |]; try discriminate.
      intros [= _ <-]. simpl. eauto.
Qed.

Lemma setitem_inv st st' request info :
  __setitem__ request info st = (Return tt, st') ->
  let self := self_ st in
  let info_fp := _get_info_fp self request in
  let icc_fp := _get_color_profile_fp self request in
  exists s1 s2 s3 mtime d' lg,
    (s1 = fs st \/
     exists r, os.makedirs (posixpath.dirname info_fp) (fs st) = (r, s1)) /\
    os.write_file info_fp (to_json info) s1 = (Return tt, s2) /\
    match color_profile_bytes info with
    | Some (String _ _ as bytes) => os.write_file icc_fp bytes s2 = (Return tt, s3)
    | _ => s3 = s2
    end /\
    os.getmtime info_fp s3 = (Return mtime, s3) /\
    evict (size self) (_dict self) = (Return tt, d') /\
    st' = mkSt (with_dict (OrderedDict.setitem (KStr (url request))
                             (VPair info (utcfromtimestamp mtime)) d') self)
            s3 lg.
Proof.
  unfold __setitem__. intros H0.
  unfold bind at 1 in H0. cbn [logger_debug modify] in H0.
  unfold bind at 1 in H0. cbn [gets self_] in H0.
  unfold bind at 1 in H0. cbn [sys_test gets fs] in H0.
  eff_inv H0. apply ensure_dir_inv in Hm as [Hself Hfs]. simpl in Hself, Hfs.
  eff_inv H0. apply sys_inv in Hm as (s2 & Hw & ->). destruct a0.
  unfold bind at 1 in H0. cbn [logger_debug modify self_ fs log] in H0.
  eff_inv H0.
  assert (Hicc : exists s3 lg3,
             st1 = mkSt (self_ st) s3 lg3 /\
             match color_profile_bytes info with
             | Some (String _ _ as bytes) =>
                 os.write_file (_get_color_profile_fp (self_ st) request) bytes s2
                   = (Return tt, s3)
             | _ => s3 = s2
             end).
  { destruct (color_profile_bytes info) as [[| c bytes] |].
    - injection Hm as _ <-. rewrite Hself. eauto.
    - eff_inv Hm. apply sys_inv in Hm0 as (s3 & Hw3 & ->). destruct a1.
      injection Hm as _ <-. simpl. rewrite Hself. eauto.
    - injection Hm as _ <-. rewrite Hself. eauto. }
  destruct Hicc as (s3 & lg3 & -> & Hicc).
  eff_inv H0. apply sys_inv in Hm0 as (s4 & Hmt & ->).
  simpl in Hmt. pose proof (os_facts.getmtime_state _ _ _ _ Hmt) as ->.
  unfold bind at 1 in H0. cbn [gets self_] in H0.
  destruct (evict (size (self_ st)) (_dict (self_ st))) as [popped d'] eqn:Hev.
  unfold bind at 1 in H0. cbn [set_dict modify self_ fs log] in H0.
  unfold bind at 1 in H0. unfold lift_outcome at 1 in H0.
  destruct popped as [[] | e]; [| discriminate].
  injection H0 as <-.
  exists (fs st0), s2, s3, a1, d', lg3.
  split_and!; done.
Qed.

(** A [put] that returns leaves no more entries than the capacity. *)
Lemma setitem_bounded st st' request info :
  __setitem__ request info st = (Return tt, st') ->
  size (self_ st') = size (self_ st) /\
  OrderedDict.len (_dict (self_ st')) <= size (self_ st').
Proof.
  intros (s1 & s2 & s3 & mtime & d' & lg & _ & _ & _ & _ & Hev & ->)%setitem_inv.
  simpl. split; [done |]. apply evict_return in Hev.
  pose proof (len_setitem (KStr (url request))
                (VPair info (utcfromtimestamp mtime)) d'). lia.
Qed.

(** Where the directory of the info file is there, the info and sidecar
    paths are free or hold files, and the capacity is one or more, [put]
    returns. *)
Lemma setitem_returns st request info (t : Z) :
  let info_fp := _get_info_fp (self_ st) request in
  let icc_fp := _get_color_profile_fp (self_ st) request in
  0 < size (self_ st) ->
  os.nodes (fs st) !! posixpath.dirname info_fp = Some (os.Dir t) ->
  (os.nodes (fs st) !! info_fp = None \/
   exists c0 t0, os.nodes (fs st) !! info_fp = Some (os.File c0 t0)) ->
  (os.nodes (fs st) !! icc_fp = None \/
   exists c0 t0, os.nodes (fs st) !! icc_fp = Some (os.File c0 t0)) ->
  exists st', __setitem__ request info st = (Return tt, st').
Proof.
  intros info_fp icc_fp Hsize Hdp Hinfo Hicc.
  assert (Hne : icc_fp <> info_fp) by apply fp_distinct.
  assert (Hdne : posixpath.dirname info_fp <> info_fp).
  { intros Heq. rewrite Heq in Hdp.
    destruct Hinfo as [E | (c0 & t0 & E)]; rewrite E in Hdp; discriminate. }
  assert (Hdicc : posixpath.dirname icc_fp = posixpath.dirname info_fp).
  { unfold icc_fp, info_fp.
    destruct (fp_shape (self_ st) request) as (P & -> & ->).
    by rewrite !dirname_append. }
  assert (Hdne' : posixpath.dirname info_fp <> icc_fp).
  { intros Heq. rewrite Heq in Hdp.
    destruct Hicc as [E | (c0 & t0 & E)]; rewrite E in Hdp; discriminate. }
  destruct (evict_returns (size (self_ st)) (_dict (self_ st)) Hsize) as [d' Hev].
  unfold __setitem__.
  unfold bind at 1. cbn [logger_debug modify].
  unfold bind at 1. cbn [gets self_].
  unfold bind at 1. cbn [sys_test gets fs]. fold info_fp icc_fp.
  unfold os.isdir. rewrite (stat_plain _ _ _ Hdp) by done. cbn [negb].
  unfold bind at 1. cbn [ret].
  unfold bind at 1, sys at 1. cbn [fs self_ log].
  rewrite (write_file_returns _ _ _ _ Hdp Hinfo).
  unfold bind at 1. cbn [logger_debug modify self_ fs log].
  set (s2 := os.put_node info_fp _ (fs st)).
  assert (Hmt : forall s3, os.nodes s3 !! info_fp
                  = Some (os.File (to_json info) (os.clock (fs st))) ->
            os.getmtime info_fp s3 = (Return (os.clock (fs st)), s3)).
  { intros s3 H3. unfold os.getmtime. by rewrite (stat_plain _ _ _ H3). }
  assert (H2 : os.nodes s2 !! info_fp
                 = Some (os.File (to_json info) (os.clock (fs st)))).
  { apply lookup_insert_eq. }
  assert (Hfin : forall s3 lg, os.nodes s3 !! info_fp
                   = Some (os.File (to_json info) (os.clock (fs st))) ->
            exists st', (mtime <- sys (os.getmtime info_fp) ;;
               d <- gets (fun st => _dict (self_ st)) ;;
               (let (popped, d') := evict (size (self_ st)) d in
                set_dict d' ;;;
                lift_outcome popped ;;;
                set_dict (OrderedDict.setitem (KStr (url request))
                            (VPair info (utcfromtimestamp mtime)) d')))%eff
              (mkSt (self_ st) s3 lg) = (Return tt, st')).
  { intros s3 lg H3. unfold bind at 1, sys at 1. cbn [fs self_ log].
    rewrite (Hmt s3 H3). unfold bind at 1. cbn [gets self_].
    rewrite Hev. eexists. reflexivity. }
  destruct (color_profile_bytes info) as [[| c bytes] |].
  - unfold bind at 1. cbn [ret]. by apply Hfin.
  - unfold bind at 1, bind at 1, sys at 1. cbn [fs self_ log].
    rewrite (write_file_returns _ _ t).
    + cbn [logger_debug modify self_ fs log]. apply Hfin.
      cbn [os.put_node os.nodes]. by rewrite lookup_insert_ne.
    + rewrite Hdicc. subst s2. cbn [os.put_node os.nodes].
      by rewrite lookup_insert_ne.
    + subst s2. cbn [os.put_node os.nodes].
      by rewrite lookup_insert_ne.
  - unfold bind at 1. cbn [ret]. by apply Hfin.
Qed.

(** C4: after a [put] that has returned, [get] for the same request
    returns the record that was put, with the modification time that the
    info file has on the disk the [put] left. *)
Theorem setitem_then_get st st' request info :
  __setitem__ request info st = (Return tt, st') ->
  exists mtime,
    os.getmtime (_get_info_fp (self_ st) request) (fs st')
      = (Return mtime, fs st') /\
    get request st' = (Return (Some (VPair info (utcfromtimestamp mtime))), st').
Proof.
  intros (s1 & s2 & s3 & mtime & d' & lg & _ & _ & _ & Hmt & _ & ->)%setitem_inv.
  exists mtime. split; [exact Hmt |].
  unfold get, bind. cbn [gets self_ with_dict _dict].
  by rewrite get_setitem_eq.
Qed.

(** *** What a [get] that misses in memory does *)

(** A [get] that does not find the request in [_dict] and returns a
    value has stored it in [_dict] without evicting anything. *)
Lemma get_miss_inv st st' request (v : value Payload) :
  OrderedDict.get (KStr (url request)) (_dict (self_ st)) = None ->
  get request st = (Return (Some v), st') ->
  self_ st' = with_dict (OrderedDict.setitem (KStr (url request)) v
                           (_dict (self_ st))) (self_ st) /\
  fs st' = fs st.
Proof.
  intros Hmiss. unfold get.
  unfold bind at 1. cbn [gets self_]. rewrite Hmiss.
  unfold bind at 1. cbn [sys_test gets].
  destruct (os.exists_ _ (fs st)); [| discriminate].
  intros H0. eff_inv H0.
  assert (Hst0 : st0 = st).
  { unfold from_json in Hm. eff_inv Hm.
    apply sys_inv in Hm0 as (s1 & Hrd & ->).
    injection Hm as _ <-. unfold os.read_file in Hrd.
    destruct (os.as_IOError _) as [[] |]; injection Hrd as _ <-;
      by destruct st. }
  subst st0. unfold bind at 1 in H0. cbn [sys_test gets] in H0.
  eff_inv H0.
  assert (Hst0 : st0 = st).
  { destruct (os.exists_ _ (fs st)); [| by injection Hm0 as _ <-].
    eff_inv Hm0. apply sys_inv in Hm1 as (s1 & Hrd & ->).
    injection Hm0 as _ <-. unfold os.read_file in Hrd.
    destruct (os.as_IOError _) as [[] |]; injection Hrd as _ <-;
      by destruct st. }
  subst st0. eff_inv H0. apply sys_inv in Hm1 as (s1 & Hmt & ->).
  apply os_facts.getmtime_state in Hmt as ->.
  injection H0 as <- <-. done.
Qed.

Lemma get_miss_grows st st' request (v : value Payload) :
  OrderedDict.get (KStr (url request)) (_dict (self_ st)) = None ->
  get request st = (Return (Some v), st') ->
  size (self_ st') = size (self_ st) /\
  OrderedDict.len (_dict (self_ st')) = OrderedDict.len (_dict (self_ st)) + 1.
Proof.
  intros Hmiss Hget. destruct (get_miss_inv _ _ _ _ Hmiss Hget) as [-> _].
  split; [done |]. by apply len_setitem_new.
Qed.


(** [get] reads the disk and writes nothing to it, and leaves the roots of
    the cache as they are. *)
Lemma get_preserves_disk_view request : preserves disk_view (get request).
Proof.
  assert (Hsys : forall A (m : Eff os.FS A),
             (forall s r s', m s = (r, s') -> s' = s) ->
             preserves (disk_view (Payload := Payload)) (sys m)).
  { intros A m Hm st r st' (s1 & Hs1 & ->)%sys_inv.
    unfold disk_view. simpl. by rewrite (Hm _ _ _ Hs1). }
  assert (Hread : forall p, preserves (disk_view (Payload := Payload))
                              (sys (os.read_file p))).
  { intros p. apply Hsys. intros s r s'. apply read_file_state. }
  assert (Hmtime : forall p, preserves (disk_view (Payload := Payload))
                               (sys (os.getmtime p))).
  { intros p. apply Hsys. intros s r s'. apply getmtime_state. }
  assert (Hset : forall d, preserves disk_view (set_dict d)).
  { by intros d st r st' [= _ <-]. }
  assert (Hlog : forall msg, preserves (disk_view (Payload := Payload))
                               (logger_debug msg)).
  { by intros msg st r st' [= _ <-]. }
  unfold get, from_json. apply preserves_bind; [auto with preserves |].
  intros self. destruct (OrderedDict.get _ _); [auto with preserves |].
  apply preserves_bind; [auto with preserves |]. intros [|]; [| auto with preserves].
  apply preserves_bind; [auto with preserves |]. intros info.
  apply preserves_bind; [auto with preserves |]. intros has_icc.
  apply preserves_bind; [destruct has_icc; auto with preserves |].
  auto 10 with preserves.
Qed.

(** *** [contains] *)

(** C8: whatever [_dict] holds, [has_key] and the [in] operator
    ([__contains__]) each return whether the info file of the request
    exists on disk, and leave the state, [_dict] included, as it was. *)
Theorem has_key_and_contains_disk_only st request d :
  has_key request (mkSt (with_dict d (self_ st)) (fs st) (log st))
    = (Return (os.exists_ (_get_info_fp (self_ st) request) (fs st)),
       mkSt (with_dict d (self_ st)) (fs st) (log st)) /\
  __contains__ request (mkSt (with_dict d (self_ st)) (fs st) (log st))
    = (Return (os.exists_ (_get_info_fp (self_ st) request) (fs st)),
       mkSt (with_dict d (self_ st)) (fs st) (log st)).
Proof.
  assert (Hfp : _get_info_fp (with_dict d (self_ st)) request
                = _get_info_fp (self_ st) request) by reflexivity.
  split.
  - unfold has_key, bind, sys_test, gets. cbn [self_ fs]. by rewrite Hfp.
  - unfold __contains__, has_key, bind, sys_test, gets. cbn [self_ fs].
    by rewrite Hfp.
Qed.

(** What [has_key] answers is the same before and after any [get], whether
    the [get] has stored a record in [_dict] or not. *)
Lemma has_key_after_get st st' request request'
    (r : outcome (option (value Payload))) :
  get request' st = (r, st') ->
  fst (has_key request st') = fst (has_key request st).
Proof.
  intros Hget%get_preserves_disk_view. unfold disk_view in Hget.
  injection Hget as Hfs Hhttp Hhttps.
  unfold has_key, bind, sys_test, gets, _get_info_fp, _which_root. cbn [fst].
  by rewrite Hfs, Hhttp, Hhttps.
Qed.

(** So it is for the [in] operator. *)
Lemma contains_after_get st st' request request'
    (r : outcome (option (value Payload))) :
  get request' st = (r, st') ->
  fst (__contains__ request st') = fst (__contains__ request st).
Proof. apply has_key_after_get. Qed.

(** *** [delete] *)

Lemma str_keys_init (root : string) (n : Z) :
  str_keys (_dict (__init__ (Payload := Payload) root n)).
Proof. repeat constructor. by eexists. Qed.

Lemma str_keys_setitem (s : string) (v : value Payload) d :
  str_keys d -> str_keys (OrderedDict.setitem (KStr s) v d).
Proof.
  induction 1 as [| [k' v'] d Hk Hd IH]; simpl.
  - repeat constructor. by eexists.
  - destruct (decide (KStr s = k')); constructor; try done.
Qed.

Lemma str_keys_evict (n : Z) d d' (r : outcome unit) :
  str_keys d -> evict n d = (r, d') -> str_keys d'.
Proof.
  induction 1 as [| kv d Hk Hd IH]; simpl.
  - destruct (_ >=? n); intros [= _ <-]; constructor.
  - destruct (_ >=? n); [apply IH |]. intros [= _ <-]. by constructor.
Qed.

Lemma str_keys_after_setitem st st' request info :
  str_keys (_dict (self_ st)) ->
  __setitem__ request info st = (Return tt, st') ->
  str_keys (_dict (self_ st')).
Proof.
  intros Hk (s1 & s2 & s3 & mtime & d' & lg & _ & _ & _ & _ & Hev & ->)%setitem_inv.
  simpl. eapply str_keys_setitem, str_keys_evict; eauto.
Qed.

(** [del self._dict[request]] looks for the request among keys that are
    strings: [delete] raises [KeyError] and nothing has changed. *)
Lemma delitem_raises st request :
  str_keys (_dict (self_ st)) ->
  __delitem__ request st = (Raise KeyError, st).
Proof.
  intros Hk. unfold __delitem__, bind. cbn [gets].
  rewrite delitem_absent; [done |].
  eapply Forall_impl; [exact Hk |].
  intros [k v] [s Hs]; simpl in *. by subst.
Qed.


(** *** The sidecar *)



(** *** The directory that [delete] is to remove *)

(** [os.removedirs], the last statement of [delete], has no handler around
    the [rmdir] of the directory it is given: what that [rmdir] raises
    leaves the call; only the directories above are removed in a
    [try]. *)
Lemma removedirs_raises_as_rmdir (name : string) (s : os.FS) :
  match os.rmdir name s with
  | (Raise e, s1) => os.removedirs name s = (Raise e, s1)
  | (Return _, _) => fst (os.removedirs name s) = Return tt
  end.
Proof.
  unfold os.removedirs, bind.
  destruct (os.rmdir name s) as [[[] | e] s1]; [| done].
  destruct (os.split_name name). apply removedirs_loop_returns.
Qed.

(** C5: [delete] does not complete, in any state and for any request, and
    never comes to the removal of the directory.  It raises [KeyError] at
    [del self._dict[request]] and nothing has changed; or, where [_dict]
    has the request itself for a key, the [OSError] of [os.unlink] with
    the disk as it was; or, the info file unlinked, [AttributeError] at
    the look-up of [_getcolor_profile_bytes].  Every directory of the disk
    is still a directory. *)
Theorem delitem_never_reaches_removedirs st request :
  exists e st',
    __delitem__ request st = (Raise e, st') /\
    (e = KeyError /\ st' = st \/
     (exists c, e = OSError c) /\ fs st' = fs st \/
     e = AttributeError /\
       os.nodes (fs st') !! _get_info_fp (self_ st) request = None) /\
    forall k t, os.nodes (fs st) !! k = Some (os.Dir t) ->
                exists t', os.nodes (fs st') !! k = Some (os.Dir t').
Proof.
  unfold __delitem__, bind. cbn [gets].
  destruct (OrderedDict.delitem (KReq request) (_dict (self_ st))) as [d' |].
  - cbn [set_dict modify self_ fs log].
    change (_get_info_fp (with_dict d' (self_ st)) request)
      with (_get_info_fp (self_ st) request).
    set (info_fp := _get_info_fp (self_ st) request).
    assert (Hgone : forall nd,
              os.nodes (fs st) !! info_fp = Some nd ->
              (forall t, nd <> os.Dir t) ->
              os.nodes (os.del_node info_fp (fs st)) !! info_fp = None /\
              forall k t, os.nodes (fs st) !! k = Some (os.Dir t) ->
                exists t', os.nodes (os.del_node info_fp (fs st)) !! k
                             = Some (os.Dir t')).
    { intros nd Hnd Hfile. cbn [os.del_node os.nodes].
      split; [apply lookup_delete_eq |]. intros k t Hk. exists t.
      rewrite lookup_delete_ne; [done |]. intros <-.
      rewrite Hnd in Hk. injection Hk as ->. by eapply Hfile. }
    unfold sys, os.unlink, os.lstat. cbn [self_ fs log].
    destruct (os.nodes (fs st) !! info_fp) as [[content mtime | mtime | target] |]
      eqn:Hnode.
    + destruct (Hgone _ eq_refl) as [Hinfo Hdirs]; [done |].
      do 2 eexists. split; [reflexivity |]. cbn [fs]. split; [| exact Hdirs].
      right; right. by split.
    + do 2 eexists. split; [reflexivity |]. cbn [fs].
      split; [right; left; eauto | eauto].
    + destruct (Hgone _ eq_refl) as [Hinfo Hdirs]; [done |].
      do 2 eexists. split; [reflexivity |]. cbn [fs]. split; [| exact Hdirs].
      right; right. by split.
    + do 2 eexists. split; [reflexivity |]. cbn [fs].
      split; [right; left; eauto | eauto].
  - exists KeyError, st. split_and!; [done | by left | eauto].
Qed.

End Facts.
End img_infocache_facts.

(** ** The derivative cache, [ImageCache] *)

Module imgcache_facts.
Import imgcache.

Section Facts.
Context `{Realpath}.

Lemma get_request_cache_path_pure (st : St ImageCache) (req : ImageRequest) :
  get_request_cache_path req st =
    (Return (realpath (posixpath.join (cache_root (self_ st))
                         [urllib.unquote (as_path req)]) (fs st)), st).
Proof. reflexivity. Qed.

Lemma getmtime_missing (p : string) (s : os.FS) :
  os.exists_ p s = false -> exists e, os.getmtime p s = (Raise e, s).
Proof.
  unfold os.exists_, os.getmtime.
  destruct (os.stat p s) as [nd | e]; [discriminate | eauto].
Qed.

(** [get] asks for the modification time before it asks whether the file
    is there: without a file it raises. *)
Lemma get_missing_raises (st : St ImageCache) (req : ImageRequest) (p : string) :
  get_request_cache_path req st = (Return p, st) ->
  os.exists_ p (fs st) = false ->
  exists e, get req st = (Raise e, st).
Proof.
  intros Hp Hmiss. destruct (getmtime_missing _ _ Hmiss) as [e He].
  exists e. unfold get, bind. rewrite Hp. unfold sys. rewrite He.
  by destruct st.
Qed.

(** The [else] branch of [get] is never taken. *)
Lemma get_never_none (st st' : St ImageCache) (req : ImageRequest) :
  get req st <> (Return None, st').
Proof.
  unfold get, bind. rewrite get_request_cache_path_pure.
  unfold sys, sys_test, gets, os.getmtime, os.exists_, ret. simpl.
  destruct (os.stat _ (fs st)) as [nd | e] eqn:Hstat; simpl.
  - rewrite Hstat. discriminate.
  - discriminate.
Qed.

(** C7: a [put] for a canonical request does nothing: no link is made and
    the cache object, the file system and the log are as before. *)
Theorem setitem_canonical_noop (st : St ImageCache) (req : ImageRequest)
    (canonical_fp : string) :
  is_canonical req = true ->
  __setitem__ req canonical_fp st = (Return tt, st).
Proof. intros Hc. unfold __setitem__. by rewrite Hc. Qed.

(** C6: when the requested path that [put] computes is the canonical path
    it was given, [put] returns normally, leaves the cache object and the
    file system as they were, so that no link exists that did not before,
    and hands one warning to the logger. *)
Theorem setitem_collapsed_warns (st : St ImageCache) (req : ImageRequest)
    (canonical_fp : string) :
  is_canonical req = false ->
  get_request_cache_path req st = (Return canonical_fp, st) ->
  __setitem__ req canonical_fp st =
    (Return tt,
     mkSt (self_ st) (fs st)
       (log st ++ [mkLog WARNING
          ("Circular symlink requested from " +:+ canonical_fp +:+ " to "
           +:+ canonical_fp +:+ "; not creating symlink")])).
Proof.
  intros Hc Hp. unfold __setitem__. rewrite Hc. cbn [negb].
  unfold bind. rewrite Hp. unfold _link. by rewrite String.eqb_refl.
Qed.

(** C10: [del cache[request]] returns normally and changes nothing. *)
Theorem delitem_noop (st : St ImageCache) (req : ImageRequest) :
  __delitem__ req st = (Return tt, st).
Proof. reflexivity. Qed.

End Facts.

(** C7 at a canonical request. *)
Lemma setitem_canonical_noop_witness :
  is_canonical Examples.Img.canonical_req = true /\
  __setitem__ Examples.Img.canonical_req "/cache/img/id/full/full/0/default.jpg"
    Examples.Img.fresh = (Return tt, Examples.Img.fresh).
Proof.
  split; [reflexivity |].
  apply (setitem_canonical_noop Examples.Img.fresh Examples.Img.canonical_req).
  reflexivity.
Defined.

(** C6 at a request that is not flagged canonical and whose path is the
    canonical one. *)
Lemma setitem_collapsed_warns_witness :
  is_canonical Examples.Img.collapsed_req = false /\
  get_request_cache_path Examples.Img.collapsed_req Examples.Img.fresh
    = (Return "/cache/img/id/full/full/0/default.jpg", Examples.Img.fresh) /\
  __setitem__ Examples.Img.collapsed_req
      "/cache/img/id/full/full/0/default.jpg" Examples.Img.fresh
    = (Return tt,
       mkSt (self_ Examples.Img.fresh) (fs Examples.Img.fresh)
         (log Examples.Img.fresh ++ [mkLog WARNING
            ("Circular symlink requested from "
             +:+ "/cache/img/id/full/full/0/default.jpg" +:+ " to "
             +:+ "/cache/img/id/full/full/0/default.jpg"
             +:+ "; not creating symlink")])).
Proof.
  split; [reflexivity |]. split; [reflexivity |].
  apply (setitem_collapsed_warns Examples.Img.fresh Examples.Img.collapsed_req
           "/cache/img/id/full/full/0/default.jpg"); reflexivity.
Defined.

(** C2: on a disk that has no file for the request, [get] raises the
    [OSError] of [os.path.getmtime] where a miss, [None], is due. *)
Theorem get_missing_file_raises :
  os.exists_ "/cache/img/id/full/100,/0/default.jpg" Examples.disk0 = false /\
  get Examples.Img.alias_req Examples.Img.fresh
    = (Raise (OSError ENOENT), Examples.Img.fresh).
Proof. split; vm_compute; reflexivity. Qed.

End imgcache_facts.

(** ** The caches at work *)

Module scenarios.
Import img_infocache Examples.Info.

(** C1: with capacity 2, after [A], [B] and [C] were put, [_dict] holds
    [B] and [C]; [get] for [A] then misses in memory, reads [A] back from
    disk and stores it without evicting: [_dict] holds three entries. *)
Theorem get_rehydrate_exceeds_capacity :
  keys three_puts = [KStr (url reqB); KStr (url reqC)] /\
  fst (get reqA three_puts) = Return (Some (VPair infoA (utcfromtimestamp 3))) /\
  keys (after (get reqA) three_puts)
    = [KStr (url reqB); KStr (url reqC); KStr (url reqA)] /\
  size (self_ (after (get reqA) three_puts)) = 2 /\
  OrderedDict.len (_dict (self_ (after (get reqA) three_puts))) = 3.
Proof. split_and!; vm_compute; reflexivity. Qed.

(** C3: [A] is in [_dict] and on disk; [delete] for [A] raises [KeyError]
    and changes nothing, and a new cache on the same disk still finds
    [A]. *)
Theorem delitem_raises_and_keeps_all :
  let st := after (__setitem__ reqA infoA) (fresh 2) in
  OrderedDict.get (KStr (url reqA)) (_dict (self_ st))
    = Some (VPair infoA (utcfromtimestamp 3)) /\
  os.exists_ "/cache/http/a/info.json" (fs st) = true /\
  __delitem__ reqA st = (Raise KeyError, st) /\
  fst (get reqA (restart 2 (after (__delitem__ reqA) st)))
    = Return (Some (VPair infoA (utcfromtimestamp 3))).
Proof. split_and!; vm_compute; reflexivity. Qed.

(** C4 at a put of [A] into a new cache. *)
Lemma setitem_then_get_witness :
  __setitem__ reqA infoA (fresh 2)
    = (Return tt, after (__setitem__ reqA infoA) (fresh 2)) /\
  exists mtime,
    os.getmtime (_get_info_fp (self_ (fresh 2)) reqA)
        (fs (after (__setitem__ reqA infoA) (fresh 2)))
      = (Return mtime, fs (after (__setitem__ reqA infoA) (fresh 2))) /\
    get reqA (after (__setitem__ reqA infoA) (fresh 2))
      = (Return (Some (VPair infoA (utcfromtimestamp mtime))),
         after (__setitem__ reqA infoA) (fresh 2)).
Proof.
  split; [vm_compute; reflexivity |].
  apply (img_infocache_facts.setitem_then_get (fresh 2) _ reqA infoA).
  vm_compute; reflexivity.
Defined.



End scenarios.

(** * Further properties *)

(** ** States that a call passes through *)

Module eff_more.
Import eff_facts.

Lemma bind_cases {S A B} (m : Eff S A) (k : A -> Eff S B) (s s' : S) (r : outcome B) :
  bind m k s = (r, s') ->
  (exists e, m s = (Raise e, s') /\ r = Raise e) \/
  (exists a s1, m s = (Return a, s1) /\ k a s1 = (r, s')).
Proof.
  unfold bind. destruct (m s) as [[a | e] s1]; [eauto |].
  intros [= <- <-]. eauto.
Qed.

(** A call that begins with a step that leaves [f] alone either stops there
    or goes on from a state with the same [f]. *)
Lemma bind_preserved {C A B X} (f : St C -> X) (m : Eff (St C) A)
    (k : A -> Eff (St C) B) (st st' : St C) (r : outcome B) :
  preserves f m ->
  bind m k st = (r, st') ->
  f st' = f st \/
  exists a st1, m st = (Return a, st1) /\ f st1 = f st /\ k a st1 = (r, st').
Proof.
  intros Hm [(e & Hr & _) | (a & st1 & Hr & Hk)]%bind_cases.
  - left. eapply Hm, Hr.
  - right. exists a, st1. split_and!; [done | eapply Hm, Hr | done].
Qed.

Section Self.
Context {C : Type}.

Lemma preserves_self_sys {A} (m : Eff os.FS A) : preserves (C := C) self_ (sys m).
Proof. by intros st r st' (s1 & _ & ->)%sys_inv. Qed.

Lemma preserves_self_logger_debug (msg : string) :
  preserves (C := C) self_ (logger_debug msg).
Proof. by intros st r st' [= _ <-]. Qed.

Lemma preserves_self_logger_warn (msg : string) :
  preserves (C := C) self_ (logger_warn msg).
Proof. by intros st r st' [= _ <-]. Qed.

Lemma preserves_try_except {A X} (f : St C -> X) (m : Eff (St C) A)
    (h : exn -> Eff (St C) A) :
  preserves f m -> (forall e, preserves f (h e)) -> preserves f (try_except m h).
Proof.
  intros Hm Hh st r st'. unfold try_except.
  destruct (m st) as [[a | e] st1] eqn:Em.
  - intros [= _ <-]. eapply Hm, Em.
  - intros Hr. rewrite (Hh _ _ _ _ Hr). eapply Hm, Em.
Qed.

(** The handler [except OSError as e: if e.errno == EEXIST: pass
    else: raise]. *)
Lemma preserves_eexist_handler {X} (f : St C -> X) (e : exn) :
  preserves f (match e with
               | OSError EEXIST => ret tt
               | _ => raise e
               end).
Proof. destruct e as [| | | | [] |]; auto with preserves. Qed.
End Self.

#[export] Hint Resolve preserves_self_sys preserves_self_logger_debug
  preserves_self_logger_warn preserves_try_except preserves_eexist_handler
  : preserves.

End eff_more.

(** ** More of [OrderedDict] *)

Module OrderedDict_more.
Import OrderedDict.

Section Facts.
Context {K V : Type} `{EqDecision K}.
Implicit Types (d : t (K := K) (V := V)) (k : K) (v : V).

(** [d[k] = v] for a key that is there leaves the number of entries. *)
Lemma len_setitem_present k v v0 d :
  get k d = Some v0 -> len (setitem k v d) = len d.
Proof.
  unfold len. induction d as [| [k' v'] d IH]; simpl; [done |].
  destruct (decide (k = k')); [done |]. intros Hd. simpl. specialize (IH Hd). lia.
Qed.

Lemma len_drop (n : nat) d : len (drop n d) = Z.of_nat (length d - n).
Proof. unfold len. by rewrite length_drop. Qed.
End Facts.
End OrderedDict_more.

(** ** More of [InfoCache] *)

Module img_infocache_more.
Import img_infocache eff_facts eff_more OrderedDict_facts OrderedDict_more
  os_facts posixpath_facts img_infocache_facts.

Section Facts.
Context {Payload : Type} `{Collaborators Payload}.
Abbreviation dict := (OrderedDict.t (K := key) (V := value Payload)).
Implicit Types (st : St (InfoCache Payload)) (request : Request)
  (info : ImageInfo Payload) (self : InfoCache Payload) (d : dict).

(** *** What a [put] does to the cache object, however it ends *)

Lemma setitem_cases st st' request info (r : outcome unit) :
  __setitem__ request info st = (r, st') ->
  self_ st' = self_ st \/
  exists (ro : outcome unit) d',
    evict (size (self_ st)) (_dict (self_ st)) = (ro, d') /\
    ((ro <> Return tt /\ self_ st' = with_dict d' (self_ st)) \/
     (ro = Return tt /\ r = Return tt /\
      exists lastmod,
        self_ st' = with_dict (OrderedDict.setitem (KStr (url request))
                                 (VPair info lastmod) d') (self_ st))).
Proof.
  unfold __setitem__. intros H0.
  apply (bind_preserved self_) in H0 as [H0 | (a & st1 & _ & Hs1 & H0)];
    [by left | | auto with preserves].
  apply (bind_preserved self_) in H0 as [H0 | (self & st2 & Hm & Hs2 & H0)];
    [left; congruence | | auto with preserves].
  injection Hm as <- <-.
  apply (bind_preserved self_) in H0 as [H0 | (is_dir & st3 & _ & Hs3 & H0)];
    [left; congruence | | auto with preserves].
  apply (bind_preserved self_) in H0 as [H0 | (a1 & st4 & _ & Hs4 & H0)];
    [left; congruence | | destruct is_dir; simpl; auto 10 with preserves].
  apply (bind_preserved self_) in H0 as [H0 | (a2 & st5 & _ & Hs5 & H0)];
    [left; congruence | | auto with preserves].
  apply (bind_preserved self_) in H0 as [H0 | (a3 & st6 & _ & Hs6 & H0)];
    [left; congruence | | auto with preserves].
  apply (bind_preserved self_) in H0 as [H0 | (a4 & st7 & _ & Hs7 & H0)];
    [left; congruence | |
     destruct (color_profile_bytes info) as [[| c b] |]; auto 10 with preserves].
  apply (bind_preserved self_) in H0 as [H0 | (mtime & st8 & _ & Hs8 & H0)];
    [left; congruence | | auto with preserves].
  assert (Hself : self_ st8 = self_ st) by congruence.
  assert (Hst1 : self_ st1 = self_ st) by congruence.
  unfold bind at 1 in H0. cbn [gets] in H0.
  rewrite Hst1, Hself in H0.
  destruct (evict (size (self_ st)) (_dict (self_ st))) as [ro d'] eqn:Hev.
  right. exists ro, d'. split; [done |].
  unfold bind, set_dict, modify, lift_outcome in H0. cbn [self_ fs log] in H0.
  destruct ro as [[] | e]; injection H0 as <- <-; cbn [self_].
  - right. split_and!; [done | done |]. eexists. by rewrite Hself.
  - left. split; [done | by rewrite Hself].
Qed.

(** *** What a [get] does to the cache object, however it ends *)

Lemma get_cases st st' request (r : outcome (option (value Payload))) :
  get request st = (r, st') ->
  self_ st' = self_ st \/
  (OrderedDict.get (KStr (url request)) (_dict (self_ st)) = None /\
   exists v, r = Return (Some v) /\
     self_ st' = with_dict (OrderedDict.setitem (KStr (url request)) v
                              (_dict (self_ st))) (self_ st)).
Proof.
  destruct r as [[v |] | e].
  - destruct (OrderedDict.get (KStr (url request)) (_dict (self_ st)))
      as [v0 |] eqn:Hd.
    + unfold get, bind. cbn [gets]. rewrite Hd. intros [= _ <-]. by left.
    + intros Hget. right. split; [done |]. exists v. split; [done |].
      by destruct (get_miss_inv _ _ _ _ Hd Hget).
  - unfold get. intros H0.
    apply (bind_preserved self_) in H0 as [H0 | (self & st1 & Hm & _ & H0)];
      [by left | | auto with preserves].
    injection Hm as <- <-.
    destruct (OrderedDict.get _ _); [discriminate |].
    apply (bind_preserved self_) in H0 as [H0 | (on_disk & st2 & _ & Hs2 & H0)];
      [by left | | auto with preserves].
    destruct on_disk; [| injection H0 as <-; by left].
    apply (bind_preserved self_) in H0 as [H0 | (i1 & st3 & _ & Hs3 & H0)];
      [left; congruence | | unfold from_json; auto with preserves].
    apply (bind_preserved self_) in H0 as [H0 | (has_icc & st4 & _ & Hs4 & H0)];
      [left; congruence | | auto with preserves].
    apply (bind_preserved self_) in H0 as [H0 | (i2 & st5 & _ & Hs5 & H0)];
      [left; congruence | | destruct has_icc; auto with preserves].
    apply (bind_preserved self_) in H0 as [H0 | (mtime & st6 & _ & Hs6 & H0)];
      [left; congruence | | auto with preserves].
    unfold bind, logger_debug, set_dict, modify, gets, ret in H0. discriminate.
  - unfold get. intros H0.
    apply (bind_preserved self_) in H0 as [H0 | (self & st1 & Hm & _ & H0)];
      [by left | | auto with preserves].
    injection Hm as <- <-.
    destruct (OrderedDict.get _ _); [discriminate |].
    apply (bind_preserved self_) in H0 as [H0 | (on_disk & st2 & _ & Hs2 & H0)];
      [by left | | auto with preserves].
    destruct on_disk; [| discriminate].
    apply (bind_preserved self_) in H0 as [H0 | (i1 & st3 & _ & Hs3 & H0)];
      [left; congruence | | unfold from_json; auto with preserves].
    apply (bind_preserved self_) in H0 as [H0 | (has_icc & st4 & _ & Hs4 & H0)];
      [left; congruence | | auto with preserves].
    apply (bind_preserved self_) in H0 as [H0 | (i2 & st5 & _ & Hs5 & H0)];
      [left; congruence | | destruct has_icc; auto with preserves].
    apply (bind_preserved self_) in H0 as [H0 | (mtime & st6 & _ & Hs6 & H0)];
      [left; congruence | | auto with preserves].
    unfold bind, logger_debug, set_dict, modify, gets, ret in H0. discriminate.
Qed.

(** *** Misses *)

(** X1: a request that is neither in [_dict] nor on disk is a miss: [get]
    returns [None] and changes nothing. *)
Theorem get_absent_is_none st request :
  OrderedDict.get (KStr (url request)) (_dict (self_ st)) = None ->
  os.exists_ (_get_info_fp (self_ st) request) (fs st) = false ->
  get request st = (Return None, st).
Proof.
  intros Hmem Hdisk. unfold get, bind. cbn [gets]. rewrite Hmem.
  cbn [sys_test gets]. by rewrite Hdisk.
Qed.

(** X2: for such a request [cache[request]] raises [KeyError] and changes
    nothing. *)
Theorem getitem_absent_raises_keyerror st request :
  OrderedDict.get (KStr (url request)) (_dict (self_ st)) = None ->
  os.exists_ (_get_info_fp (self_ st) request) (fs st) = false ->
  __getitem__ request st = (Raise KeyError, st).
Proof.
  intros Hmem Hdisk. unfold __getitem__, bind at 1.
  unfold get, bind. cbn [gets]. rewrite Hmem.
  cbn [sys_test gets]. by rewrite Hdisk.
Qed.

(** *** Hits in memory *)

(** X3: once a [put] has returned, [get] answers any request with the same
    URL from [_dict], with the record that was put, whatever has become of
    the disk since and whatever the path of the request is: the disk is not
    looked at. *)
Theorem setitem_then_get_any_disk st st' request request' info
    (disk : os.FS) (lg : list LogRecord) :
  __setitem__ request info st = (Return tt, st') ->
  url request' = url request ->
  exists lastmod,
    get request' (mkSt (self_ st') disk lg)
      = (Return (Some (VPair info lastmod)), mkSt (self_ st') disk lg).
Proof.
  intros (s1 & s2 & s3 & mtime & d' & lg' & _ & _ & _ & _ & _ & ->)%setitem_inv Hurl.
  exists (utcfromtimestamp mtime).
  unfold get, bind. cbn [gets self_ with_dict _dict].
  by rewrite Hurl, get_setitem_eq.
Qed.

(** X4: a [get] that has read a record back from disk has stored it: the
    same [get] again returns the same value from [_dict] and changes
    nothing. *)
Theorem get_again_hits_memory st st' request (v : value Payload) :
  OrderedDict.get (KStr (url request)) (_dict (self_ st)) = None ->
  get request st = (Return (Some v), st') ->
  get request st' = (Return (Some v), st').
Proof.
  intros Hmiss Hget. destruct (get_miss_inv _ _ _ _ Hmiss Hget) as [Hself _].
  unfold get, bind. cbn [gets]. rewrite Hself. cbn [with_dict _dict].
  by rewrite get_setitem_eq.
Qed.

(** *** Eviction *)

(** The loop drops entries from the front until fewer than [n] are left. *)
Lemma evict_drop (n : Z) d d' :
  evict n d = (Return tt, d') ->
  d' = drop (length d - Z.to_nat (n - 1)) d.
Proof.
  induction d as [| kv d IH]; simpl.
  - destruct (_ >=? n); [discriminate | by intros [= <-]].
  - destruct (_ >=? n) eqn:E.
    + rewrite Z.geb_leb in E. apply Z.leb_le in E.
      unfold OrderedDict.len in E. cbn [length] in E.
      intros Hev. pose proof (evict_return _ _ _ Hev) as Hlt.
      pose proof (OrderedDict_more.len_drop 0 d') as _.
      rewrite (IH Hev).
      assert (0 < n) by (unfold OrderedDict.len in Hlt; lia).
      replace (S (length d) - Z.to_nat (n - 1))%nat
        with (S (length d - Z.to_nat (n - 1))) by lia.
      reflexivity.
    + rewrite Z.geb_leb in E. apply Z.leb_gt in E.
      unfold OrderedDict.len in E. cbn [length] in E.
      intros [= <-].
      replace (S (length d) - Z.to_nat (n - 1))%nat with 0%nat by lia.
      reflexivity.
Qed.

(** X5: a [put] that returns has kept the [size - 1] entries stored last,
    dropped the ones stored before them, and stored its record under the URL
    of the request: in place if the URL is among the entries kept, at the end
    if not. *)
Theorem setitem_keeps_newest st st' request info :
  __setitem__ request info st = (Return tt, st') ->
  exists lastmod,
    _dict (self_ st')
      = OrderedDict.setitem (KStr (url request)) (VPair info lastmod)
          (drop (length (_dict (self_ st)) - Z.to_nat (size (self_ st) - 1))
             (_dict (self_ st))).
Proof.
  intros (s1 & s2 & s3 & mtime & d' & lg & _ & _ & _ & _ & Hev & ->)%setitem_inv.
  exists (utcfromtimestamp mtime). cbn [self_ with_dict _dict].
  by rewrite (evict_drop _ _ _ Hev).
Qed.

(** X6: a [put] for a URL that is stored already, into a full [_dict] whose
    oldest entry is another one, evicts that oldest entry all the same: one
    entry fewer than the capacity is left. *)
Theorem setitem_again_evicts st st' request info (kv : key * value Payload)
    d (v0 : value Payload) :
  _dict (self_ st) = kv :: d ->
  OrderedDict.len (kv :: d) = size (self_ st) ->
  OrderedDict.get (KStr (url request)) d = Some v0 ->
  __setitem__ request info st = (Return tt, st') ->
  (exists lastmod,
     _dict (self_ st')
       = OrderedDict.setitem (KStr (url request)) (VPair info lastmod) d) /\
  OrderedDict.len (_dict (self_ st')) = size (self_ st) - 1.
Proof.
  intros Hd Hfull Hin
    (s1 & s2 & s3 & mtime & d' & lg & _ & _ & _ & _ & Hev & ->)%setitem_inv.
  apply evict_drop in Hev. rewrite Hd in Hev.
  unfold OrderedDict.len in Hfull. cbn [length] in *.
  replace (S (length d) - Z.to_nat (size (self_ st) - 1))%nat with 1%nat
    in Hev by lia.
  cbn [drop] in Hev. rewrite drop_0 in Hev. subst d'.
  cbn [self_ with_dict _dict]. split; [by eexists |].
  rewrite (len_setitem_present _ _ _ _ Hin). unfold OrderedDict.len. lia.
Qed.

(** X7: with a capacity of zero or less every [put] raises: if nothing else
    goes wrong, the loop empties [_dict] and [popitem] raises [KeyError]. *)
Theorem setitem_needs_capacity st request info :
  size (self_ st) <= 0 ->
  exists e st', __setitem__ request info st = (Raise e, st').
Proof.
  intros Hsize. destruct (__setitem__ request info st) as [[[] | e] st'] eqn:Hput;
    [| eauto].
  apply setitem_inv in Hput
    as (s1 & s2 & s3 & mtime & d' & lg & _ & _ & _ & _ & Hev & _).
  apply evict_return in Hev. unfold OrderedDict.len in Hev. lia.
Qed.

(** *** A [put] and the disk *)

(** X8: after a [put] that has returned, the request is in the cache:
    [has_key] returns [True]. *)
Theorem has_key_after_setitem st st' request info :
  __setitem__ request info st = (Return tt, st') ->
  has_key request st' = (Return true, st').
Proof.
  intros (s1 & s2 & s3 & mtime & d' & lg & _ & _ & _ & Hmt & _ & ->)%setitem_inv.
  unfold has_key, bind, sys_test, gets. cbn [self_ fs].
  unfold os.getmtime in Hmt. unfold os.exists_.
  change (_get_info_fp (with_dict _ (self_ st)) request)
    with (_get_info_fp (self_ st) request).
  by destruct (os.stat _ s3).
Qed.

(** What [get] reads back from an info file with a sidecar. *)
Lemma get_rehydrate_with_profile st request (content bytes : string)
    (mtime t : Z) (r : ImageInfo Payload) :
  OrderedDict.get (KStr (url request)) (_dict (self_ st)) = None ->
  os.stat (_get_info_fp (self_ st) request) (fs st)
    = Return (os.File content mtime) ->
  json_load content = Return r ->
  os.stat (_get_color_profile_fp (self_ st) request) (fs st)
    = Return (os.File bytes t) ->
  fst (get request st)
    = Return (Some (VPair (set_color_profile_bytes (Some bytes) r)
                      (utcfromtimestamp mtime))).
Proof.
  intros Hmiss Hstat Hload Hicc. unfold get.
  unfold bind at 1. cbn [gets self_]. rewrite Hmiss.
  unfold bind at 1. cbn [sys_test gets]. unfold os.exists_ at 1.
  rewrite Hstat.
  unfold bind at 1, from_json, bind at 1, sys at 1, os.read_file at 1.
  rewrite Hstat. cbn [os.as_IOError]. unfold lift_outcome at 1.
  rewrite Hload. destruct st as [self s lg]. cbn [self_ fs log] in *.
  unfold bind at 1. cbn [sys_test gets fs]. unfold os.exists_ at 1.
  rewrite Hicc.
  unfold bind at 1, bind at 1, sys at 1, os.read_file at 1. cbn [fs].
  rewrite Hicc. cbn [os.as_IOError ret self_ fs log].
  unfold bind at 1, sys at 1, os.getmtime at 1. cbn [fs].
  rewrite Hstat. reflexivity.
Qed.

(** X9: a record put with profile bytes comes back from disk with them: after
    a [put] that has returned, made where neither path is a link, a [get]
    that does not find the request in [_dict] returns the record that the
    JSON text decodes to, with the bytes that were put. *)
Theorem setitem_with_profile_reads_back st st' request info d
    (bytes : string) (r : ImageInfo Payload) :
  let info_fp := _get_info_fp (self_ st) request in
  let icc_fp := _get_color_profile_fp (self_ st) request in
  color_profile_bytes info = Some bytes ->
  truthy bytes = true ->
  (forall target, os.nodes (fs st) !! info_fp <> Some (os.Symlink target)) ->
  (forall target, os.nodes (fs st) !! icc_fp <> Some (os.Symlink target)) ->
  __setitem__ request info st = (Return tt, st') ->
  json_load (to_json info) = Return r ->
  OrderedDict.get (KStr (url request)) d = None ->
  exists mtime,
    fst (get request (mkSt (with_dict d (self_ st')) (fs st') (log st')))
      = Return (Some (VPair (set_color_profile_bytes (Some bytes) r)
                        (utcfromtimestamp mtime))).
Proof.
  intros info_fp icc_fp Hbytes Htruthy Hplain Hplain_icc
    (s1 & s2 & s3 & mtime & d' & lg & Hs1 & Hw & Hicc & _ & _ & ->)%setitem_inv
    Hload Hmiss.
  fold info_fp in Hs1, Hw. fold icc_fp in Hicc. cbn [fs self_ log].
  rewrite Hbytes in Hicc. destruct bytes as [| c bytes]; [discriminate |].
  assert (Hdirs : forall k, only_dirs (posixpath.dirname info_fp) k (fs st) s1).
  { intros k. destruct Hs1 as [-> | [ro Hmk]];
      [apply only_dirs_refl | by eapply makedirs_only_dirs]. }
  assert (Hp1 : forall target, os.nodes s1 !! info_fp <> Some (os.Symlink target)).
  { intros target. destruct (Hdirs info_fp) as [-> | [_ [t ->]]]; [apply Hplain | done]. }
  assert (Hp1' : forall target, os.nodes s1 !! icc_fp <> Some (os.Symlink target)).
  { intros target. destruct (Hdirs icc_fp) as [-> | [_ [t ->]]]; [apply Hplain_icc | done]. }
  apply (write_file_plain _ _ _ _ Hp1) in Hw as ->.
  assert (Hne : icc_fp <> info_fp) by apply fp_distinct.
  assert (Hp2 : forall target,
             os.nodes (os.put_node info_fp (os.File (to_json info) (os.clock s1)) s1)
               !! icc_fp <> Some (os.Symlink target)).
  { intros target. cbn [os.put_node os.nodes].
    rewrite lookup_insert_ne by done. apply Hp1'. }
  apply (write_file_plain _ _ _ _ Hp2) in Hicc as ->.
  exists (os.clock s1).
  eapply get_rehydrate_with_profile; cbn [self_ fs with_dict _dict]; eauto.
  - apply stat_plain with (nd := os.File (to_json info) (os.clock s1)); [| done].
    cbn [os.put_node os.nodes]. rewrite lookup_insert_ne by done.
    apply lookup_insert_eq.
  - apply stat_put_node_file.
Qed.

(** X24: a [put] that has returned, made where neither path is a link, has
    left the JSON text of its record in the info file, whatever the file held
    before, and the time that [get] then returns with the record is the
    modification time of that file. *)
Theorem setitem_writes_info_file st st' request info :
  let info_fp := _get_info_fp (self_ st) request in
  let icc_fp := _get_color_profile_fp (self_ st) request in
  (forall target, os.nodes (fs st) !! info_fp <> Some (os.Symlink target)) ->
  (forall target, os.nodes (fs st) !! icc_fp <> Some (os.Symlink target)) ->
  __setitem__ request info st = (Return tt, st') ->
  exists mtime,
    os.stat info_fp (fs st') = Return (os.File (to_json info) mtime) /\
    get request st' = (Return (Some (VPair info (utcfromtimestamp mtime))), st').
Proof.
  intros info_fp icc_fp Hplain Hplain_icc
    (s1 & s2 & s3 & mtime & d' & lg & Hs1 & Hw & Hicc & Hmt & _ & ->)%setitem_inv.
  fold info_fp in Hs1, Hw, Hmt. fold icc_fp in Hicc. cbn [fs].
  assert (Hdirs : forall k, only_dirs (posixpath.dirname info_fp) k (fs st) s1).
  { intros k. destruct Hs1 as [-> | [ro Hmk]];
      [apply only_dirs_refl | by eapply makedirs_only_dirs]. }
  assert (Hp1 : forall target, os.nodes s1 !! info_fp <> Some (os.Symlink target)).
  { intros target. destruct (Hdirs info_fp) as [-> | [_ [t ->]]]; [apply Hplain | done]. }
  assert (Hp1' : forall target, os.nodes s1 !! icc_fp <> Some (os.Symlink target)).
  { intros target. destruct (Hdirs icc_fp) as [-> | [_ [t ->]]]; [apply Hplain_icc | done]. }
  apply (write_file_plain _ _ _ _ Hp1) in Hw as ->.
  assert (Hne : icc_fp <> info_fp) by apply fp_distinct.
  assert (Hinfo3 : os.nodes s3 !! info_fp
                     = Some (os.File (to_json info) (os.clock s1))).
  { destruct (color_profile_bytes info) as [[| c bytes] |]; try subst s3;
      try apply lookup_insert_eq.
    assert (Hp2 : forall target,
               os.nodes (os.put_node info_fp (os.File (to_json info) (os.clock s1)) s1)
                 !! icc_fp <> Some (os.Symlink target)).
    { intros target. cbn [os.put_node os.nodes].
      rewrite lookup_insert_ne by done. apply Hp1'. }
    apply (write_file_plain _ _ _ _ Hp2) in Hicc as ->.
    cbn [os.put_node os.nodes]. rewrite lookup_insert_ne by done.
    apply lookup_insert_eq. }
  assert (Hstat : os.stat info_fp s3 = Return (os.File (to_json info) (os.clock s1)))
    by (by apply stat_plain).
  unfold os.getmtime in Hmt. rewrite Hstat in Hmt. injection Hmt as <-.
  exists (os.clock s1). split; [exact Hstat |].
  unfold get, bind. cbn [gets self_ with_dict _dict os.st_mtime].
  by rewrite get_setitem_eq.
Qed.

(** X10: an info file whose text does not parse makes [get] raise what the
    parser raises; nothing is stored in [_dict] and nothing else changes. *)
Theorem get_unparsable_raises st request (content : string) (t : Z) (e : exn) :
  OrderedDict.get (KStr (url request)) (_dict (self_ st)) = None ->
  os.stat (_get_info_fp (self_ st) request) (fs st) = Return (os.File content t) ->
  json_load content = Raise e ->
  get request st = (Raise e, st).
Proof.
  intros Hmiss Hstat Hload. unfold get.
  unfold bind at 1. cbn [gets self_]. rewrite Hmiss.
  unfold bind at 1. cbn [sys_test gets]. unfold os.exists_ at 1.
  rewrite Hstat.
  unfold bind at 1, from_json, bind at 1, sys at 1, os.read_file at 1.
  rewrite Hstat. cbn [os.as_IOError]. unfold lift_outcome at 1.
  rewrite Hload. by destruct st.
Qed.

(** *** Runs of [get] and [put] *)

Lemma evict_len (n : Z) d d' (ro : outcome unit) :
  evict n d = (ro, d') -> OrderedDict.len d' <= OrderedDict.len d.
Proof.
  revert d'. induction d as [| kv d IH]; intros d'; simpl.
  - destruct (_ >=? n); by intros [= _ <-].
  - destruct (_ >=? n).
    + intros Hev. specialize (IH _ Hev). unfold OrderedDict.len in *.
      cbn [length]. lia.
    + by intros [= _ <-].
Qed.

(** A [put], however it ends, leaves the capacity as it is and [_dict]
    within it if it was. *)
Lemma setitem_keeps_bound st st' request info (r : outcome unit) (n : Z) :
  __setitem__ request info st = (r, st') ->
  size (self_ st) = n /\ OrderedDict.len (_dict (self_ st)) <= n ->
  size (self_ st') = n /\ OrderedDict.len (_dict (self_ st')) <= n.
Proof.
  intros [-> | (ro & d' & Hev & [[_ ->] | (-> & _ & lastmod & ->)])]%setitem_cases
    [Hn Hlen]; [done | ..]; cbn [with_dict size _dict]; split; try done.
  - apply evict_len in Hev. lia.
  - apply evict_return in Hev.
    pose proof (len_setitem (KStr (url request)) (VPair info lastmod) d'). lia.
Qed.

(** X11: a new cache of capacity one or more that is only put into, in any
    order and whether the puts return or raise, never holds more entries
    than its capacity. *)
Theorem puts_keep_capacity (ops : list op) (root : string) (n : Z)
    (disk : os.FS) (lg : list LogRecord) :
  1 <= n ->
  forallb is_put ops = true ->
  OrderedDict.len (_dict (self_ (run ops (mkSt (__init__ root n) disk lg)))) <= n.
Proof.
  intros Hn Hops.
  assert (Hinv : forall st,
             size (self_ st) = n /\ OrderedDict.len (_dict (self_ st)) <= n ->
             size (self_ (run ops st)) = n /\
             OrderedDict.len (_dict (self_ (run ops st))) <= n).
  { induction ops as [| [request | request info] ops IH]; intros st Hst;
      [done | discriminate |].
    cbn [run fold_left step]. apply (IH Hops).
    destruct (__setitem__ request info st) as [r st1] eqn:Hput.
    eapply setitem_keeps_bound; eauto. }
  apply Hinv. cbn. unfold OrderedDict.len. cbn [length]. lia.
Qed.

(** The keys of [_dict] stay strings through [get] and [put]. *)
Lemma step_keeps_str_keys st (o : op) :
  str_keys (_dict (self_ st)) -> str_keys (_dict (self_ (step st o))).
Proof.
  intros Hk. destruct o as [request | request info]; cbn [step].
  - destruct (get request st) as [r st1] eqn:Hget. cbn [snd].
    apply get_cases in Hget as [-> | (_ & v & _ & ->)]; [done |].
    by apply str_keys_setitem.
  - destruct (__setitem__ request info st) as [r st1] eqn:Hput. cbn [snd].
    apply setitem_cases in Hput
      as [-> | (ro & d' & Hev & [[_ ->] | (-> & _ & lastmod & ->)])]; [done | ..];
      cbn [with_dict _dict].
    + eapply str_keys_evict; eauto.
    + eapply str_keys_setitem, str_keys_evict; eauto.
Qed.

(** X12: in every state that a new cache reaches through calls of [get] and
    [put], [del cache[request]] raises [KeyError] and removes nothing, for
    every request. *)
Theorem delitem_raises_after_any_run (ops : list op) (root : string) (n : Z)
    (disk : os.FS) (lg : list LogRecord) request :
  __delitem__ request (run ops (mkSt (__init__ root n) disk lg))
    = (Raise KeyError, run ops (mkSt (__init__ root n) disk lg)).
Proof.
  apply delitem_raises.
  assert (Hinv : forall st, str_keys (_dict (self_ st)) ->
                            str_keys (_dict (self_ (run ops st)))).
  { induction ops as [| o ops IH]; intros st Hst; [done |].
    cbn [run fold_left]. by apply IH, step_keeps_str_keys. }
  apply Hinv, str_keys_init.
Qed.

End Facts.
End img_infocache_more.

(** ** The paths of [InfoCache] *)

Module img_infocache_paths.
Import img_infocache posixpath posixpath_facts img_infocache_facts.

(** [s.split(sep)] is never empty. *)
Lemma split_nonempty (sep : ascii) (s : string) : Py.split sep s <> [].
Proof.
  destruct s as [| c s]; simpl; [done |].
  destruct (Ascii.eqb c sep); [done |]. by destruct (Py.split sep s).
Qed.

(** [(a + sep + b).split(sep) == a.split(sep) + b.split(sep)] *)
Lemma split_append (sep : ascii) (a b : string) :
  Py.split sep (a +:+ String sep b) = (Py.split sep a ++ Py.split sep b)%list.
Proof.
  induction a as [| c a IH].
  - change (EmptyString +:+ String sep b) with (String sep b).
    cbn [Py.split]. by rewrite Ascii.eqb_refl.
  - change (String c a +:+ String sep b) with (String c (a +:+ String sep b)).
    cbn [Py.split]. rewrite IH.
    destruct (Ascii.eqb c sep); [done |].
    pose proof (split_nonempty sep a).
    by destruct (Py.split sep a).
Qed.

(** ['/'.join(s.split('/')) == s] *)
Lemma concat_split (s : string) : String.concat "/" (Py.split "/" s) = s.
Proof.
  induction s as [| c s IH]; [done |].
  cbn [Py.split]. pose proof (split_nonempty "/" s) as Hne.
  destruct (Py.split "/" s) as [| h t]; [done |].
  rewrite <- IH.
  destruct (Ascii.eqb_spec c "/") as [-> | Hc]; [reflexivity |].
  by destruct t.
Qed.

Section Facts.
Context {Payload : Type}.
Implicit Types (self : InfoCache Payload) (request : Request).

(** X13: the identifier of a request is its path without the first
    character and without the last segment. *)
Theorem ident_from_request_drops_last_segment (u ident name : string) (c : ascii) :
  Py.split "/" name = [name] ->
  ident_from_request (mkRequest u (String c (ident +:+ "/" +:+ name))) = ident.
Proof.
  intros Hname. unfold ident_from_request. cbn [path drop_first].
  change ("/" +:+ name) with (String "/" name).
  rewrite split_append, Hname, removelast_last. apply concat_split.
Qed.

(** X14: an identifier that decodes to a path with a leading slash takes
    the place of the cache root: the info and sidecar paths are that path
    with the file name, whatever the roots are. *)
Theorem absolute_ident_replaces_root self request :
  startswith_slash (urllib.unquote (ident_from_request request)) = true ->
  _get_info_fp self request
    = join (urllib.unquote (ident_from_request request)) ["info.json"] /\
  _get_color_profile_fp self request
    = join (urllib.unquote (ident_from_request request)) ["profile.icc"].
Proof.
  intros Habs. unfold _get_info_fp, _get_color_profile_fp, join.
  cbn [fold_left].
  assert (Hroot : join_step (_which_root self request)
                    (urllib.unquote (ident_from_request request))
                  = urllib.unquote (ident_from_request request)).
  { unfold join_step. by rewrite Habs. }
  by rewrite Hroot.
Qed.

(** X15: the sidecar lies beside the info file: the two paths differ and
    have the same directory. *)
Theorem sidecar_beside_info self request :
  _get_color_profile_fp self request <> _get_info_fp self request /\
  dirname (_get_color_profile_fp self request)
    = dirname (_get_info_fp self request).
Proof.
  split; [apply fp_distinct |].
  destruct (fp_shape self request) as (P & -> & ->).
  by rewrite !dirname_append.
Qed.

(** A path that ends in a name that is not empty ends as the name does. *)
Lemma endswith_slash_append (P s : string) :
  truthy s = true -> endswith_slash (P +:+ s) = endswith_slash s.
Proof.
  intros Hs. induction P as [| c P IH]; [done |].
  change (String c P +:+ s) with (String c (P +:+ s)).
  cbn [endswith_slash]. rewrite IH.
  destruct (P +:+ s) eqn:E; [| done].
  destruct P; [| discriminate]. destruct s; discriminate.
Qed.

Lemma truthy_append (P s : string) : truthy s = true -> truthy (P +:+ s) = true.
Proof. intros Hs. destruct P; [done | reflexivity]. Qed.

(** Joining a name to a root that does not end in a slash. *)
Lemma join_step_plain (a u : string) :
  truthy a = true -> endswith_slash a = false -> startswith_slash u = false ->
  join_step a u = a +:+ "/" +:+ u.
Proof.
  intros Ha Hend Hu. unfold join_step. by rewrite Hu, Ha, Hend.
Qed.

(** X16: in a cache made by [__init__], a request over [https] and one
    over [http] for the same path have info paths that differ as strings,
    unless the identifier decodes to a path with a leading slash.  (The
    paths are not normalised: through [..] segments of the identifier two
    different strings can still name one file.) *)
Theorem schemes_have_distinct_paths (root : string) (n : Z) (r1 r2 : Request) :
  String.prefix "https" (url r1) = true ->
  String.prefix "https" (url r2) = false ->
  path r1 = path r2 ->
  startswith_slash (urllib.unquote (ident_from_request r1)) = false ->
  _get_info_fp (__init__ (Payload := Payload) root n) r1
    <> _get_info_fp (__init__ (Payload := Payload) root n) r2.
Proof.
  intros H1 H2 Hpath Hrel.
  assert (Hident : ident_from_request r2 = ident_from_request r1).
  { unfold ident_from_request. by rewrite Hpath. }
  unfold _get_info_fp, _which_root. rewrite H1, H2, Hident.
  set (u := urllib.unquote (ident_from_request r1)) in *.
  cbn [__init__ http_root https_root].
  assert (Hroots : exists X, join root ["http"] = X +:+ "http" /\
                             join root ["https"] = X +:+ "https").
  { unfold join. cbn [fold_left]. unfold join_step.
    cbn [startswith_slash Ascii.eqb Bool.eqb].
    destruct (negb (truthy root) || endswith_slash root).
    - by exists root.
    - exists (root +:+ "/"). by rewrite !append_assoc. }
  destruct Hroots as (X & -> & ->).
  unfold join. cbn [fold_left].
  assert (Hstep : forall scheme, truthy scheme = true ->
            endswith_slash scheme = false ->
            join_step (join_step (X +:+ scheme) u) "info.json"
              = X +:+ scheme +:+ "/" +:+ u
                  +:+ (if endswith_slash ("/" +:+ u) then "info.json"
                       else "/info.json")).
  { intros scheme Ht He.
    assert (Hplain : join_step (X +:+ scheme) u = (X +:+ scheme) +:+ "/" +:+ u).
    { apply join_step_plain; [by apply truthy_append | | done].
      by rewrite endswith_slash_append. }
    rewrite Hplain.
    unfold join_step. cbn [startswith_slash Ascii.eqb Bool.eqb].
    rewrite truthy_append by reflexivity.
    rewrite (endswith_slash_append (X +:+ scheme) ("/" +:+ u)) by reflexivity.
    cbn [negb orb].
    destruct (endswith_slash ("/" +:+ u)); by rewrite !append_assoc. }
  rewrite !Hstep by done.
  intros Heq%(inj (String.app X)). discriminate.
Qed.

End Facts.
End img_infocache_paths.

(** ** More of the file system *)

Module os_more.
Import os os_facts.

Lemma adds_dirs_refl (s : FS) : adds_dirs s s.
Proof.
  intros k. destruct (nodes s !! k) as [[content t | t | target] |]; eauto.
Qed.

Lemma adds_dirs_trans (s s1 s2 : FS) :
  adds_dirs s s1 -> adds_dirs s1 s2 -> adds_dirs s s2.
Proof.
  intros H1 H2 k. specialize (H1 k). specialize (H2 k).
  destruct (nodes s !! k) as [[content t | t | target] |].
  - by rewrite H1 in H2.
  - destruct H1 as [t1 H1]. by rewrite H1 in H2.
  - by rewrite H1 in H2.
  - destruct H1 as [H1 | [t1 H1]]; rewrite H1 in H2; [done | by right].
Qed.

Lemma mkdir_adds_dirs (p : string) (s s1 : FS) (r : outcome unit) :
  mkdir p s = (r, s1) -> adds_dirs s s1.
Proof.
  unfold mkdir, lexists, lstat.
  destruct (nodes s !! p) as [nd |] eqn:Hp; [intros [= _ <-]; apply adds_dirs_refl |].
  destruct (check_parent p s); intros [= _ <-]; [| apply adds_dirs_refl].
  intros k. cbn [put_node nodes]. destruct (decide (k = p)) as [-> | Hne].
  - rewrite Hp. right. eexists. apply lookup_insert_eq.
  - rewrite lookup_insert_ne by done. apply adds_dirs_refl.
Qed.

(** [makedirs], however it ends, has added directories and nothing
    else. *)
Lemma makedirs_rec_adds_dirs (fuel : nat) (name : string) (s s1 : FS)
    (r : outcome unit) :
  makedirs_rec fuel name s = (r, s1) -> adds_dirs s s1.
Proof.
  revert name s s1 r.
  induction fuel as [| fuel IH]; intros name s s1 r; simpl;
    destruct (split_name name) as [head tail];
    destruct (truthy head && truthy tail && negb (exists_ head s)).
  - intros [= _ <-]. apply adds_dirs_refl.
  - apply mkdir_adds_dirs.
  - unfold bind, try_except.
    destruct (makedirs_rec fuel head s) as [o s2] eqn:Erec.
    apply IH in Erec.
    assert (Hlast : forall r s1,
              (if String.eqb tail "." then ret tt else mkdir name) s2 = (r, s1) ->
              adds_dirs s s1).
    { intros r' s1' Hr. apply (adds_dirs_trans s s2 s1' Erec).
      destruct (String.eqb tail ".").
      - injection Hr as _ <-. apply adds_dirs_refl.
      - by eapply mkdir_adds_dirs. }
    destruct o as [[] | e]; [apply Hlast |].
    destruct e as [| | | | [] |]; simpl;
      solve [apply Hlast | intros [= _ <-]; exact Erec].
  - apply mkdir_adds_dirs.
Qed.

Lemma makedirs_adds_dirs (name : string) (s s1 : FS) (r : outcome unit) :
  makedirs name s = (r, s1) -> adds_dirs s s1.
Proof. apply makedirs_rec_adds_dirs. Qed.

(** A file that is there before directories are added is there afterwards,
    as it was. *)
Lemma adds_dirs_keeps (s s1 : FS) (k content : string) (t : Z) :
  adds_dirs s s1 -> nodes s !! k = Some (File content t) ->
  nodes s1 !! k = Some (File content t).
Proof. intros Ha Hk. specialize (Ha k). by rewrite Hk in Ha. Qed.


(** A link that [symlink] has made is at its place, and only there has the
    file system changed. *)
Lemma symlink_returns (source link_name : string) (s s1 : FS) :
  symlink source link_name s = (Return tt, s1) ->
  s1 = put_node link_name (Symlink source) s.
Proof.
  unfold symlink. destruct (lexists link_name s); [discriminate |].
  destruct (check_parent link_name s); by intros [= <-].
Qed.

Lemma unlink_frame (p k : string) (s s1 : FS) (r : outcome unit) :
  unlink p s = (r, s1) -> k <> p -> nodes s1 !! k = nodes s !! k.
Proof.
  unfold unlink. destruct (lstat p s) as [[| |] | e]; intros [= _ <-] Hne;
    try done; cbn [del_node nodes]; by rewrite lookup_delete_ne.
Qed.

(** Reading through a link to a file reads the file. *)
Lemma read_through_link (link target content : string) (t : Z) (s : FS) :
  nodes s !! link = Some (Symlink target) ->
  nodes s !! target = Some (File content t) ->
  read_file link s = (Return content, s).
Proof.
  intros Hl Ht. unfold read_file, stat, lstat, MAXSYMLINKS.
  cbn [resolve]. rewrite Hl, Ht. cbn [as_IOError]. by rewrite Ht.
Qed.

End os_more.

(** ** More of [ImageCache] *)

Module imgcache_more.
Import imgcache eff_facts eff_more os_facts os_more imgcache_facts.

Section Facts.
Context `{Realpath}.

Lemma get_found (st : St ImageCache) (req : ImageRequest) (p : string)
    (nd : os.node) :
  get_request_cache_path req st = (Return p, st) ->
  os.stat p (fs st) = Return nd ->
  get req st = (Return (Some (p, utcfromtimestamp (os.st_mtime nd))), st).
Proof.
  intros Hp Hstat. unfold get, bind. rewrite Hp.
  unfold sys, os.getmtime. rewrite Hstat. cbn [self_ fs log].
  unfold sys_test, gets, os.exists_. cbn [fs]. rewrite Hstat.
  by destruct st.
Qed.

(** X17: where the file of a request exists, [get] returns its path and
    modification time and changes nothing. *)
Theorem get_existing_returns_path_and_mtime (st : St ImageCache)
    (req : ImageRequest) (p : string) (nd : os.node) :
  get_request_cache_path req st = (Return p, st) ->
  os.stat p (fs st) = Return nd ->
  get req st = (Return (Some (p, utcfromtimestamp (os.st_mtime nd))), st).
Proof. apply get_found. Qed.

(** X18: [request in cache] never raises, and it is [True] exactly when
    [get] returns a path for the request. *)
Theorem contains_iff_get_hits (st : St ImageCache) (req : ImageRequest) :
  exists b, __contains__ req st = (Return b, st) /\
            (b = true <-> exists v, get req st = (Return (Some v), st)).
Proof.
  pose proof (get_request_cache_path_pure st req) as Hp.
  set (p := realpath _ _) in Hp.
  exists (os.exists_ p (fs st)). split.
  - unfold __contains__, bind. by rewrite Hp.
  - unfold os.exists_. destruct (os.stat p (fs st)) as [nd | e] eqn:Hstat.
    + split; [intros _ | done]. eexists. by apply get_found.
    + split; [done |]. intros [v Hget].
      unfold get, bind in Hget. rewrite Hp in Hget.
      unfold sys, os.getmtime in Hget. rewrite Hstat in Hget. discriminate.
Qed.


(** *** The alias that [put] makes *)

(** What [_link] has done when it returns for two different paths. *)
Lemma link_inv (st st' : St ImageCache) (source link_name : string) :
  source <> link_name ->
  _link source link_name st = (Return tt, st') ->
  self_ st' = self_ st /\
  os.nodes (fs st') !! link_name = Some (os.Symlink source) /\
  forall k content t, k <> link_name ->
    os.nodes (fs st) !! k = Some (os.File content t) ->
    os.nodes (fs st') !! k = Some (os.File content t).
Proof.
  intros Hne. unfold _link.
  destruct (String.eqb_spec source link_name) as [-> | _]; [done |].
  intros H0. unfold bind at 1 in H0. cbn [sys_test gets] in H0.
  img_infocache_facts.eff_inv H0.
  assert (H1 : self_ st0 = self_ st /\ adds_dirs (fs st) (fs st0)).
  { destruct (negb _).
    - apply sys_inv in Hm as (s1 & Hmk & ->). cbn [self_ fs].
      split; [done | by eapply makedirs_adds_dirs].
    - injection Hm as _ <-. split; [done | apply adds_dirs_refl]. }
  destruct H1 as [Hself1 Hdirs].
  unfold bind at 1 in H0. cbn [sys_test gets] in H0.
  img_infocache_facts.eff_inv H0.
  assert (H2 : self_ st1 = self_ st0 /\
               forall k, k <> link_name ->
                         os.nodes (fs st1) !! k = os.nodes (fs st0) !! k).
  { destruct (os.lexists _ _).
    - apply sys_inv in Hm0 as (s1 & Hul & ->). cbn [self_ fs].
      split; [done |]. intros k Hk. by eapply unlink_frame.
    - by injection Hm0 as _ <-. }
  destruct H2 as [Hself2 Hframe].
  img_infocache_facts.eff_inv H0. apply sys_inv in Hm1 as (s3 & Hsl & ->).
  destruct a1. apply symlink_returns in Hsl as ->.
  injection H0 as <-. cbn [self_ fs log os.put_node os.nodes].
  split_and!; [congruence | apply lookup_insert_eq |].
  intros k content t Hk Hnd. rewrite lookup_insert_ne by done.
  rewrite Hframe by done. by eapply adds_dirs_keeps.
Qed.

(** X20: a [put] for a request that is not canonical and whose path is not
    the canonical path, once it has returned, has left a symbolic link to the
    canonical path at the path of the request, whatever was there before, and
    has not touched the cache object. *)
Theorem setitem_makes_link (st st' : St ImageCache) (req : ImageRequest)
    (requested_fp canonical_fp : string) :
  is_canonical req = false ->
  get_request_cache_path req st = (Return requested_fp, st) ->
  requested_fp <> canonical_fp ->
  __setitem__ req canonical_fp st = (Return tt, st') ->
  os.nodes (fs st') !! requested_fp = Some (os.Symlink canonical_fp) /\
  self_ st' = self_ st.
Proof.
  intros Hc Hp Hne. unfold __setitem__. rewrite Hc. cbn [negb].
  unfold bind. rewrite Hp. intros Hlink.
  apply link_inv in Hlink as (Hself & Hl & _); [done | congruence].
Qed.

(** X21: after such a [put], reading the path of the request reads the
    canonical file: the bytes are those of the file at the canonical
    path. *)
Theorem alias_reads_canonical_file (st st' : St ImageCache) (req : ImageRequest)
    (requested_fp canonical_fp content : string) (t : Z) :
  is_canonical req = false ->
  get_request_cache_path req st = (Return requested_fp, st) ->
  requested_fp <> canonical_fp ->
  os.nodes (fs st) !! canonical_fp = Some (os.File content t) ->
  __setitem__ req canonical_fp st = (Return tt, st') ->
  os.read_file requested_fp (fs st') = (Return content, fs st').
Proof.
  intros Hc Hp Hne Hfile. unfold __setitem__. rewrite Hc. cbn [negb].
  unfold bind. rewrite Hp. intros Hlink.
  apply link_inv in Hlink as (_ & Hl & Hkeep); [| congruence].
  eapply read_through_link; [exact Hl |].
  apply Hkeep; [congruence | exact Hfile].
Qed.

(** *** What the cache never does *)

Lemma preserves_self_get_request_cache_path (req : ImageRequest) :
  preserves self_ (get_request_cache_path req).
Proof. unfold get_request_cache_path. auto with preserves. Qed.

Lemma preserves_self_link (source link_name : string) :
  preserves self_ (_link source link_name).
Proof.
  unfold _link. destruct (String.eqb source link_name); [auto with preserves |].
  apply preserves_bind; [auto with preserves |]. intros dp_exists.
  apply preserves_bind; [destruct dp_exists; simpl; auto with preserves |].
  intros _. apply preserves_bind; [auto with preserves |]. intros link_exists.
  apply preserves_bind; [destruct link_exists; auto with preserves |].
  auto with preserves.
Qed.

(** X22: no method of [ImageCache] changes the cache object: nothing is ever
    stored in the [dict] that the class derives from. *)
Theorem methods_keep_cache_object (req : ImageRequest) (canonical_fp : string) :
  preserves self_ (get req) /\
  preserves self_ (__contains__ req) /\
  preserves self_ (__getitem__ req) /\
  preserves self_ (__setitem__ req canonical_fp) /\
  preserves self_ (__delitem__ req) /\
  preserves self_ (create_dir_and_return_file_path req).
Proof.
  pose proof (preserves_self_get_request_cache_path req) as Hp.
  assert (Hget : preserves self_ (get req)).
  { unfold get. apply preserves_bind; [done |]. intros p.
    apply preserves_bind; [auto with preserves |]. intros mtime.
    apply preserves_bind; [auto with preserves |]. intros [|]; auto with preserves. }
  split_and!.
  - exact Hget.
  - unfold __contains__. auto with preserves.
  - unfold __getitem__. apply preserves_bind; [done |].
    intros [v |]; auto with preserves.
  - unfold __setitem__. destruct (negb _); [| auto with preserves].
    apply preserves_bind; [done |]. intros p. apply preserves_self_link.
  - unfold __delitem__. auto with preserves.
  - unfold create_dir_and_return_file_path, get_canonical_cache_path.
    auto 10 with preserves.
Qed.

(** *** Reserving a path *)

(** X23: [create_dir_and_return_file_path], however it ends, has only added
    directories: every file and every link that was there is there as it
    was, every directory is still a directory (nothing is said of its time
    stamp), and what is new is a directory; the cache object and the log are
    untouched, and what it returns is the canonical path of the request. *)
Theorem reserve_adds_only_directories (st st' : St ImageCache)
    (req : ImageRequest) (r : outcome string) :
  create_dir_and_return_file_path req st = (r, st') ->
  adds_dirs (fs st) (fs st') /\
  self_ st' = self_ st /\ log st' = log st /\
  forall p, r = Return p -> get_canonical_cache_path req st = (Return p, st).
Proof.
  unfold create_dir_and_return_file_path, bind at 1.
  assert (Hp : exists p, get_canonical_cache_path req st = (Return p, st))
    by (exists (realpath (posixpath.join (cache_root (self_ st))
                  [urllib.unquote (canonical_as_path req)]) (fs st));
        reflexivity).
  destruct Hp as [p Hp]. rewrite Hp.
  unfold bind, try_except, sys.
  destruct (os.makedirs _ (fs st)) as [[[] | e] s1] eqn:Hmk;
    apply makedirs_adds_dirs in Hmk.
  - intros [= <- <-]. cbn [self_ fs log]. split_and!; try done.
    by intros p' [= <-].
  - destruct e as [| | | | [] |]; intros [= <- <-]; cbn [self_ fs log];
      split_and!; try done. by intros p' [= <-].
Qed.

End Facts.
End imgcache_more.

(** ** The further properties at work *)

Module more_scenarios.
Import img_infocache Examples.Info.

(** X1 at a new cache on a disk without info files. *)
Lemma get_absent_is_none_witness :
  os.exists_ "/cache/http/a/info.json" (fs (fresh 2)) = false /\
  get reqA (fresh 2) = (Return None, fresh 2).
Proof.
  split; [vm_compute; reflexivity |].
  apply (img_infocache_more.get_absent_is_none (fresh 2) reqA);
    vm_compute; reflexivity.
Defined.

(** X2 at the same cache. *)
Lemma getitem_absent_raises_keyerror_witness :
  __getitem__ reqA (fresh 2) = (Raise KeyError, fresh 2).
Proof.
  apply (img_infocache_more.getitem_absent_raises_keyerror (fresh 2) reqA);
    vm_compute; reflexivity.
Defined.

(** X3: [A] is put; on a disk without any info file, a request with the URL
    of [A] and another path is answered with the record of [A]. *)
Lemma setitem_then_get_any_disk_witness :
  os.exists_ (_get_info_fp (self_ (fresh 2)) reqA_other_path) Examples.disk0 = false /\
  exists lastmod,
    get reqA_other_path
        (mkSt (self_ (after (__setitem__ reqA infoA) (fresh 2))) Examples.disk0 [])
      = (Return (Some (VPair infoA lastmod)),
         mkSt (self_ (after (__setitem__ reqA infoA) (fresh 2))) Examples.disk0 []).
Proof.
  split; [vm_compute; reflexivity |].
  apply (img_infocache_more.setitem_then_get_any_disk (fresh 2) _ reqA
           reqA_other_path infoA Examples.disk0 []);
    vm_compute; reflexivity.
Defined.

(** X4 at a new cache over the disk that a put of [A] left. *)
Lemma get_again_hits_memory_witness :
  get reqA (after (get reqA) (restart 2 (after (__setitem__ reqA infoA) (fresh 2))))
    = (Return (Some (VPair infoA (utcfromtimestamp 3))),
       after (get reqA) (restart 2 (after (__setitem__ reqA infoA) (fresh 2)))).
Proof.
  apply (img_infocache_more.get_again_hits_memory
           (restart 2 (after (__setitem__ reqA infoA) (fresh 2))) _ reqA);
    vm_compute; reflexivity.
Defined.

(** X5 at the third of three puts into a cache of capacity 2. *)
Lemma setitem_keeps_newest_witness :
  exists lastmod,
    _dict (self_ three_puts)
      = OrderedDict.setitem (KStr (url reqC)) (VPair infoC lastmod)
          (drop (length (_dict (self_ two_puts)) - Z.to_nat (size (self_ two_puts) - 1))
             (_dict (self_ two_puts))).
Proof.
  apply (img_infocache_more.setitem_keeps_newest two_puts three_puts reqC infoC).
  vm_compute; reflexivity.
Defined.

(** X6: [A] and [B] fill the cache; [B] is put again and [A] is gone. *)
Lemma setitem_again_evicts_witness :
  (exists lastmod,
     _dict (self_ (after (__setitem__ reqB infoB) two_puts))
       = OrderedDict.setitem (KStr (url reqB)) (VPair infoB lastmod)
           [(KStr (url reqB), VPair infoB (utcfromtimestamp 5))]) /\
  OrderedDict.len (_dict (self_ (after (__setitem__ reqB infoB) two_puts)))
    = size (self_ two_puts) - 1.
Proof.
  apply (img_infocache_more.setitem_again_evicts two_puts _ reqB infoB
           (KStr (url reqA), VPair infoA (utcfromtimestamp 3))
           [(KStr (url reqB), VPair infoB (utcfromtimestamp 5))]
           (VPair infoB (utcfromtimestamp 5)));
    vm_compute; reflexivity.
Defined.

(** X7 at a cache of capacity 0. *)
Lemma setitem_needs_capacity_witness :
  exists e st', __setitem__ reqA infoA (fresh 0) = (Raise e, st').
Proof.
  apply (img_infocache_more.setitem_needs_capacity (fresh 0) reqA infoA).
  vm_compute; discriminate.
Defined.

(** X8 at a put of [A]. *)
Lemma has_key_after_setitem_witness :
  has_key reqA (after (__setitem__ reqA infoA) (fresh 2))
    = (Return true, after (__setitem__ reqA infoA) (fresh 2)).
Proof.
  apply (img_infocache_more.has_key_after_setitem (fresh 2) _ reqA infoA).
  vm_compute; reflexivity.
Defined.

(** X9 at a put of [A] with profile bytes. *)
Lemma setitem_with_profile_reads_back_witness :
  let st := fresh 2 in
  let st' := after (__setitem__ reqA infoA_icc) st in
  exists mtime,
    fst (get reqA (mkSt (with_dict (_dict (self_ st)) (self_ st')) (fs st') (log st')))
      = Return (Some (VPair (set_color_profile_bytes (Some "ICC") infoA)
                        (utcfromtimestamp mtime))).
Proof.
  apply (img_infocache_more.setitem_with_profile_reads_back (fresh 2) _ reqA
           infoA_icc _ "ICC" infoA).
  - reflexivity.
  - reflexivity.
  - intros target; vm_compute; discriminate.
  - intros target; vm_compute; discriminate.
  - vm_compute; reflexivity.
  - reflexivity.
  - reflexivity.
Defined.

(** X24: [A] is put twice, the second time with the record of [B]. *)
Lemma setitem_writes_info_file_witness :
  let st := after (__setitem__ reqA infoA) (fresh 2) in
  let st' := after (__setitem__ reqA infoB) st in
  exists mtime,
    os.stat (_get_info_fp (self_ st) reqA) (fs st')
      = Return (os.File (to_json infoB) mtime) /\
    get reqA st' = (Return (Some (VPair infoB (utcfromtimestamp mtime))), st').
Proof.
  apply (img_infocache_more.setitem_writes_info_file
           (after (__setitem__ reqA infoA) (fresh 2)) _ reqA infoB).
  - intros target; vm_compute; discriminate.
  - intros target; vm_compute; discriminate.
  - vm_compute; reflexivity.
Defined.

(** X10 at an info file that holds no JSON. *)
Lemma get_unparsable_raises_witness :
  get (H := braced_records) reqA garbled = (Raise ValueError, garbled).
Proof.
  apply (img_infocache_more.get_unparsable_raises (H := braced_records)
           garbled reqA "not json" 1 ValueError);
    vm_compute; reflexivity.
Defined.

(** X11 at the puts of [A], [B] and [C] into a cache of capacity 2. *)
Lemma puts_keep_capacity_witness :
  OrderedDict.len
    (_dict (self_ (run abc_puts (mkSt (__init__ "/cache" 2) Examples.disk0 [])))) <= 2.
Proof.
  apply (img_infocache_more.puts_keep_capacity abc_puts "/cache" 2 Examples.disk0 []);
    [lia | reflexivity].
Defined.

(** X13 at the path of [A/B]. *)
Lemma ident_from_request_drops_last_segment_witness :
  ident_from_request reqAB = "a/b".
Proof.
  apply (img_infocache_paths.ident_from_request_drops_last_segment
           "http://loris/a/b/info.json" "a/b" "info.json" "/").
  reflexivity.
Defined.

(** X14 at an identifier that decodes to [/etc]. *)
Lemma absolute_ident_replaces_root_witness :
  _get_info_fp (self_ (fresh 2)) req_abs = "/etc/info.json" /\
  _get_color_profile_fp (self_ (fresh 2)) req_abs = "/etc/profile.icc".
Proof.
  apply (img_infocache_paths.absolute_ident_replaces_root (self_ (fresh 2)) req_abs).
  vm_compute; reflexivity.
Defined.

(** X16 at [A] over [https] and over [http]. *)
Lemma schemes_have_distinct_paths_witness :
  _get_info_fp (__init__ (Payload := string) "/cache" 2) reqA_https
    <> _get_info_fp (__init__ (Payload := string) "/cache" 2) reqA.
Proof.
  apply (img_infocache_paths.schemes_have_distinct_paths "/cache" 2 reqA_https reqA);
    reflexivity.
Defined.

End more_scenarios.

Module more_img_scenarios.
Import imgcache Examples.Img.

(** X17 at the canonical request, on a disk that holds its file. *)
Lemma get_existing_returns_path_and_mtime_witness :
  get canonical_req rendered
    = (Return (Some ("/cache/img/id/full/full/0/default.jpg", utcfromtimestamp 5)),
       rendered).
Proof.
  apply (imgcache_more.get_existing_returns_path_and_mtime rendered canonical_req
           "/cache/img/id/full/full/0/default.jpg" (os.File "JPEG" 5));
    vm_compute; reflexivity.
Defined.

(** X20 at a request for another spelling of the canonical one. *)
Lemma setitem_makes_link_witness :
  os.nodes (fs (snd (__setitem__ alias_req "/cache/img/id/full/full/0/default.jpg"
                        rendered)))
    !! "/cache/img/id/full/100,/0/default.jpg"
    = Some (os.Symlink "/cache/img/id/full/full/0/default.jpg") /\
  self_ (snd (__setitem__ alias_req "/cache/img/id/full/full/0/default.jpg" rendered))
    = self_ rendered.
Proof.
  apply (imgcache_more.setitem_makes_link rendered _ alias_req
           "/cache/img/id/full/100,/0/default.jpg"
           "/cache/img/id/full/full/0/default.jpg").
  - reflexivity.
  - reflexivity.
  - discriminate.
  - vm_compute; reflexivity.
Defined.

(** X21 at the same put. *)
Lemma alias_reads_canonical_file_witness :
  os.read_file "/cache/img/id/full/100,/0/default.jpg"
      (fs (snd (__setitem__ alias_req "/cache/img/id/full/full/0/default.jpg" rendered)))
    = (Return "JPEG",
       fs (snd (__setitem__ alias_req "/cache/img/id/full/full/0/default.jpg" rendered))).
Proof.
  apply (imgcache_more.alias_reads_canonical_file rendered _ alias_req
           "/cache/img/id/full/100,/0/default.jpg"
           "/cache/img/id/full/full/0/default.jpg" "JPEG" 5).
  - reflexivity.
  - reflexivity.
  - discriminate.
  - vm_compute; reflexivity.
  - vm_compute; reflexivity.
Defined.

(** X23 at a request whose directories are not there yet. *)
Lemma reserve_adds_only_directories_witness :
  adds_dirs (fs fresh) (fs (snd (create_dir_and_return_file_path alias_req fresh))) /\
  self_ (snd (create_dir_and_return_file_path alias_req fresh)) = self_ fresh /\
  log (snd (create_dir_and_return_file_path alias_req fresh)) = log fresh /\
  forall p, fst (create_dir_and_return_file_path alias_req fresh) = Return p ->
            get_canonical_cache_path alias_req fresh = (Return p, fresh).
Proof.
  apply (imgcache_more.reserve_adds_only_directories fresh _ alias_req).
  vm_compute; reflexivity.
Defined.

End more_img_scenarios.
